(** * SecureBank: session revocation and step-up authentication

    A shallow embedding of the session directory ([sessionStore.mjs]), the
    Universal Logout endpoint ([universalLogout.mjs]) and the wire-transfer
    router ([routes/wire-transfer.mjs]), with the properties of the
    specification stated against it.

    Conventions.
    - JavaScript strings are modelled by [string] restricted to ASCII, so
      [toLowerCase] maps [A-Z] to [a-z] and leaves other characters alone.
    - Asynchronous code is modelled by its sequential run: one request is
      processed from start to end without another task interleaving.
    - [console.log] and friends are modelled only where evaluating their
      argument can raise: a template literal that converts a value of the
      request to a string. *)

From Stdlib Require Import ZArith Lia Ascii DecimalString Floats.
From stdpp Require Import gmap strings list fin_maps.

Set Warnings "-register-all".

(** ** JavaScript values *)

Module JS.

(** The values that reach the code: what [JSON.parse] produces (request
    bodies, session records), [undefined] for an absent property, and the one
    prototype method the property names of this code can hit
    ([String.prototype.sub]).  Numbers are the integer-valued ones. *)
Inductive value : Type :=
| VUndefined
| VNull
| VBool (b : bool)
| VNum (n : Z)
| VStr (s : string)
| VArr (items : list value)
| VObj (props : list (string * value))
| VFun (name : string).

(** An [Error] object, as far as the code looks at it. *)
Record js_error : Type := mkError { name : string; message : string }.

(** A computation that either returns or throws. *)
Inductive result (A : Type) : Type :=
| Ok (a : A)
| Throw (e : js_error).
Arguments Ok {A} a.
Arguments Throw {A} e.

#[global] Instance result_ret : MRet result := λ A a, Ok a.

#[global] Instance result_bind : MBind result := λ A B k r,
  match r with
  | Ok a => k a
  | Throw e => Throw e
  end.

Definition TypeError (msg : string) : js_error :=
  {| name := "TypeError"; message := msg |}.

(** [ToBoolean]: the falsy values are [undefined], [null], [false], [0] and
    the empty string. *)
Definition truthy (v : value) : bool :=
  match v with
  | VUndefined | VNull => false
  | VBool b => b
  | VNum n => negb (n =? 0)%Z
  | VStr s => negb (String.eqb s "")
  | VArr _ | VObj _ | VFun _ => true
  end.

Definition nullish (v : value) : bool :=
  match v with
  | VUndefined | VNull => true
  | _ => false
  end.

(** [a || b] *)
Definition js_or (a b : value) : value := if truthy a then a else b.

(** [typeof v === 'object'] *)
Definition typeof_object (v : value) : bool :=
  match v with
  | VNull | VArr _ | VObj _ => true
  | _ => false
  end.

Fixpoint lookup_prop (k : string) (props : list (string * value)) : value :=
  match props with
  | [] => VUndefined
  | (k', v) :: rest => if String.eqb k' k then v else lookup_prop k rest
  end.

(** [o.k] for a receiver that is neither [undefined] nor [null] (every use
    below is guarded that way, by a truthiness test or by [?.]).  The names
    read by the code are [passport], [user], [emails], [email], [_json],
    [preferred_username], [id], [sub], [value], [format], [iss], [sub_id]; of
    these only [sub] exists on a built-in prototype, that of strings. *)
Definition get_prop (o : value) (k : string) : value :=
  match o with
  | VObj props => lookup_prop k props
  | VStr _ => if String.eqb k "sub" then VFun "sub" else VUndefined
  | _ => VUndefined
  end.

(** [o?.k] *)
Definition opt_prop (o : value) (k : string) : value :=
  if nullish o then VUndefined else get_prop o k.

(** [o?.[0]]: the first element of an array, the first character of a
    string, the property ["0"] of an object. *)
Definition opt_index0 (o : value) : value :=
  match o with
  | VArr (x :: _) => x
  | VStr (String c _) => VStr (String c "")
  | VObj props => lookup_prop "0" props
  | _ => VUndefined
  end.

(** [a === b].  Two objects (arrays, functions) are equal when they are the
    same reference; every comparison below has a freshly parsed request value
    on one side and a session-store value on the other, so it is [false]. *)
Definition strict_eq (a b : value) : bool :=
  match a, b with
  | VUndefined, VUndefined => true
  | VNull, VNull => true
  | VBool x, VBool y => Bool.eqb x y
  | VNum x, VNum y => (x =? y)%Z
  | VStr x, VStr y => String.eqb x y
  | _, _ => false
  end.

Definition lower_ascii (c : Ascii.ascii) : Ascii.ascii :=
  let n := Ascii.N_of_ascii c in
  if ((65 <=? n) && (n <=? 90))%N then Ascii.ascii_of_N (n + 32) else c.

(** [s.toLowerCase()] on a string. *)
Fixpoint toLowerCase (s : string) : string :=
  match s with
  | EmptyString => EmptyString
  | String c rest => String (lower_ascii c) (toLowerCase rest)
  end.

(** [v.toLowerCase()] on a value that is truthy: only strings have the
    method. *)
Definition call_toLowerCase (v : value) : result string :=
  match v with
  | VStr s => Ok (toLowerCase s)
  | _ => Throw (TypeError "toLowerCase is not a function")
  end.

Definition RangeError (msg : string) : js_error :=
  {| name := "RangeError"; message := msg |}.

(** The own property [k] of an object, [None] when the object has none of
    that name (and the prototype is consulted). *)
Fixpoint own_prop (k : string) (props : list (string * value)) : option value :=
  match props with
  | [] => None
  | (k', v) :: rest => if String.eqb k' k then Some v else own_prop k rest
  end.

Section ToString.

(** [Number::toString] of the engine, on the integer-valued numbers: the
    decimal digits of a safe integer, the exponent notation from 10^21 on. *)
Variable Number_toString : Z → string.

(** [ToString], as a template literal applies it.
    - An array is joined with commas ([Array.prototype.toString]), [null]
      and [undefined] printing as the empty string.
    - An object without an own [toString] prints through
      [Object.prototype.toString].  An own [toString] that is no function
      is passed over, and so is an own [valueOf] that is none, while the
      inherited [valueOf] returns the object itself: no primitive value is
      found, which is a [TypeError].  The one function of the model,
      [String.prototype.sub], converts its receiver to a string in turn, so
      as an own [toString] or [valueOf] it recurs until the stack is
      exhausted. *)
Fixpoint js_toString (v : value) : result string :=
  match v with
  | VUndefined => Ok "undefined"
  | VNull => Ok "null"
  | VBool true => Ok "true"
  | VBool false => Ok "false"
  | VNum n => Ok (Number_toString n)
  | VStr s => Ok s
  | VArr items =>
      (fix join (l : list value) : result string :=
         match l with
         | [] => Ok ""
         | [x] => if nullish x then Ok "" else js_toString x
         | x :: rest =>
             first ← (if nullish x then Ok "" else js_toString x);
             others ← join rest;
             Ok (first +:+ "," +:+ others)
         end) items
  | VObj props =>
      match own_prop "toString" props with
      | None => Ok "[object Object]"
      | Some (VFun _) => Throw (RangeError "Maximum call stack size exceeded")
      | Some _ =>
          match own_prop "valueOf" props with
          | Some (VFun _) =>
              Throw (RangeError "Maximum call stack size exceeded")
          | _ => Throw (TypeError "Cannot convert object to primitive value")
          end
      end
  | VFun f => Ok ("function " +:+ f +:+ "() { [native code] }")
  end.

End ToString.

End JS.
Export JS.

(** ** The session directory and the session store ([sessionStore.mjs]) *)

Module SessionStore.

(** A session record of the store: the own properties of the session object
    that [express-session] serialises ([cookie], [passport], ...). *)
Abbreviation session_data := (list (string * value)).

(** The calls made on the store, in order.  The trace is a ghost of the
    model: it records which store methods a run invoked. *)
Inductive store_call : Type :=
| CallDestroy (sid : string)
| CallAll.

(** The two module-level objects of [sessionStore.mjs].
    - [userSessions] is [new Map()] from a lowercased email to a [Set] of
      session ids.  A [gmap] of [gset]s drops the insertion order, which only
      decides the order in which a [for ... of] visits the members.
    - [store] is [new MemoryStore()]; [MemoryStore] belongs to the
      [express-session] package, an external collaborator.  Its contents are
      the association list of session id and record, in the order
      [Object.entries] enumerates them. *)
Record state : Type := mkState {
  userSessions : gmap string (gset string);
  store : list (string * session_data);
  calls : list store_call
}.

Definition set_userSessions (us : gmap string (gset string)) (st : state) : state :=
  {| userSessions := us; store := store st; calls := calls st |}.

(** Modelled from the spec: [store.destroy(sid, callback)] of the external
    Session Store, "destroy-by-id".  The record with that id is removed; an
    id that is not there is not an error. *)
Definition store_destroy (sid : string) (st : state) : state :=
  {| userSessions := userSessions st;
     store := filter (λ e, e.1 ≠ sid) (store st);
     calls := calls st ++ [CallDestroy sid] |}.

(** Modelled from the spec: [store.all(callback)] of the external Session
    Store, "mapping of sessionId to opaque record".  The callback receives
    [(err, sessions)]; the in-memory store never reports an error, which is
    [Some] here. *)
Definition store_all (st : state) : option (list (string * session_data)) * state :=
  (Some (store st),
   {| userSessions := userSessions st;
      store := store st;
      calls := calls st ++ [CallAll] |}).

(** [userSessions.has(k)] *)
Definition has (k : string) (us : gmap string (gset string)) : bool :=
  bool_decide (is_Some (us !! k)).

(** [registerUserSession(email, sessionId)]; both parameters are strings
    (JSDoc), of which only the empty one is falsy. *)
Definition registerUserSession (email sessionId : string) (st : state) : state :=
  if negb (truthy (VStr email)) || negb (truthy (VStr sessionId)) then st
  else
    let normalizedEmail := toLowerCase email in
    let us := userSessions st in
    let us := if negb (has normalizedEmail us)
              then <[normalizedEmail := ∅]> us else us in
    set_userSessions (alter (λ ids, ids ∪ {[sessionId]}) normalizedEmail us) st.

(** [unregisterUserSession(email, sessionId)] *)
Definition unregisterUserSession (email sessionId : string) (st : state) : state :=
  if negb (truthy (VStr email)) || negb (truthy (VStr sessionId)) then st
  else
    let normalizedEmail := toLowerCase email in
    let us := userSessions st in
    if has normalizedEmail us then
      let us := alter (λ ids, ids ∖ {[sessionId]}) normalizedEmail us in
      let us := if (size (us !!! normalizedEmail) =? 0)%nat
                then delete normalizedEmail us else us in
      set_userSessions us st
    else st.

(** The loop of Method 1: [for (const sid of sessionIds)]. *)
Fixpoint destroy_members (sids : list string) (destroyedCount : nat) (st : state)
  : nat * state :=
  match sids with
  | [] => (destroyedCount, st)
  | sid :: rest => destroy_members rest (S destroyedCount) (store_destroy sid st)
  end.

(** [user.emails?.[0]?.value || user.email || user._json?.email ||
    user.preferred_username] *)
Definition userEmail_of (user : value) : value :=
  js_or (opt_prop (opt_index0 (get_prop user "emails")) "value")
    (js_or (get_prop user "email")
       (js_or (opt_prop (get_prop user "_json") "email")
          (get_prop user "preferred_username"))).

(** The loop of Method 2: [for (const [sid, sessionData] of
    Object.entries(sessions))], run inside the callback of [store.all].  An
    exception ends the loop where it is raised; the state keeps what was done
    before. *)
Fixpoint scan_by_email (normalizedEmail : string)
    (entries : list (string * session_data)) (destroyedCount : nat) (st : state)
  : result nat * state :=
  match entries with
  | [] => (Ok destroyedCount, st)
  | (sid, sessionData) :: rest =>
      let passport := lookup_prop "passport" sessionData in
      if truthy passport && truthy (get_prop passport "user") then
        let user := get_prop passport "user" in
        let userEmail := userEmail_of user in
        if truthy userEmail then
          match call_toLowerCase userEmail with
          | Throw e => (Throw e, st)
          | Ok lowered =>
              if String.eqb lowered normalizedEmail
              then scan_by_email normalizedEmail rest (S destroyedCount)
                     (store_destroy sid st)
              else scan_by_email normalizedEmail rest destroyedCount st
          end
        else scan_by_email normalizedEmail rest destroyedCount st
      else scan_by_email normalizedEmail rest destroyedCount st
  end.

(** How an [await] on a promise of this code ends. *)
Inductive promise (A : Type) : Type :=
| Resolved (a : A)
| Rejected (e : js_error)
| Unsettled (e : js_error).
Arguments Resolved {A} a.
Arguments Rejected {A} e.
Arguments Unsettled {A} e.

(** [destroyUserSessions(email)].  The route hands over the [email] of the
    request body unchecked, so the parameter is any value.
    - [Rejected]: [email.toLowerCase()] raised in the body of the [async]
      function.
    - [Unsettled]: an exception was raised inside the callback of
      [store.all], which the store runs from the event loop; [resolve] is
      never called. *)
Definition destroyUserSessions (email : value) (st : state) : promise nat * state :=
  if negb (truthy email) then (Resolved 0%nat, st)
  else
    match call_toLowerCase email with
    | Throw e => (Rejected e, st)
    | Ok normalizedEmail =>
        let '(destroyedCount, st) :=
          if has normalizedEmail (userSessions st) then
            let sessionIds := userSessions st !!! normalizedEmail in
            let '(n, st) := destroy_members (elements sessionIds) 0 st in
            (n, set_userSessions (delete normalizedEmail (userSessions st)) st)
          else (0%nat, st) in
        let '(sessions, st) := store_all st in
        match sessions with
        | None => (Resolved destroyedCount, st)
        | Some sessions =>
            match scan_by_email normalizedEmail sessions destroyedCount st with
            | (Ok n, st) => (Resolved n, st)
            | (Throw e, st) => (Unsettled e, st)
            end
        end
    end.

(** The operations on the directory, as the login flow, the logout flow and
    the revocation endpoint invoke them. *)
Inductive directory_op : Type :=
| OpRegister (email sessionId : string)
| OpUnregister (email sessionId : string)
| OpDestroy (email : value).

Definition apply_op (o : directory_op) (st : state) : state :=
  match o with
  | OpRegister email sessionId => registerUserSession email sessionId st
  | OpUnregister email sessionId => unregisterUserSession email sessionId st
  | OpDestroy email => (destroyUserSessions email st).2
  end.

(** The directory invariant: an entry's set of session ids is never empty. *)
Definition directory_inv (us : gmap string (gset string)) : Prop :=
  ∀ k ids, us !! k = Some ids → ids ≠ ∅.

(** The principal the scans look at: [sessionData.passport.user], when
    [passport] and [user] are both truthy. *)
Definition principal_of (sessionData : session_data) : option value :=
  let passport := lookup_prop "passport" sessionData in
  if truthy passport && truthy (get_prop passport "user")
  then Some (get_prop passport "user") else None.

(** The record is one Method 2 destroys: the email resolved for its
    principal is a non-empty string that lowercases to [normalizedEmail]. *)
Definition email_hit (normalizedEmail : string) (sessionData : session_data) : bool :=
  match principal_of sessionData with
  | Some user =>
      match userEmail_of user with
      | VStr s => truthy (VStr s) && String.eqb (toLowerCase s) normalizedEmail
      | _ => false
      end
  | None => false
  end.

(** The comparison of Method 2 raises nothing on the record: the email
    resolved for its principal is falsy or a string. *)
Definition scannable (sessionData : session_data) : bool :=
  match principal_of sessionData with
  | Some user =>
      match userEmail_of user with
      | VStr _ => true
      | e => negb (truthy e)
      end
  | None => true
  end.

(** The store after [destroy] was called on each of [sids]. *)
Definition without (sids : list string) (sessions : list (string * session_data))
  : list (string * session_data) :=
  filter (λ e, e.1 ∉ sids) sessions.

(** The ids of the records of [sessions] that Method 2 destroys. *)
Definition email_hits (normalizedEmail : string)
    (sessions : list (string * session_data)) : list string :=
  (filter (λ e, email_hit normalizedEmail e.2) sessions).*1.

(** Every key of the directory is a lowercased string. *)
Definition keys_normalized (us : gmap string (gset string)) : Prop :=
  ∀ k, is_Some (us !! k) → toLowerCase k = k.

(** The login flow registering the session ids of a list, one call each. *)
Definition register_all (email : string) (sids : list string) (st : state) : state :=
  foldl (λ s sid, registerUserSession email sid s) st sids.

Definition is_destroy (c : store_call) : bool :=
  match c with
  | CallDestroy _ => true
  | CallAll => false
  end.

(** The number of [destroy] calls in a trace. *)
Definition destroy_calls (trace : list store_call) : nat :=
  length (filter (λ c, is_destroy c) trace).

End SessionStore.

(** ** The Universal Logout endpoint ([universalLogout.mjs]) *)

Module UniversalLogout.
Import SessionStore.

(** What a handler sends: [res.status(s).json({error, error_description})] or
    [res.sendStatus(s)]. *)
Inductive response : Type :=
| Json (status : nat) (error error_description : string)
| SendStatus (status : nat).

(** The object [extractUserIdentifier] returns, by its [type]:
    [{type: 'email', value, email}] or [{type: 'iss_sub', value, issuer,
    subject}]. *)
Inductive user_identifier : Type :=
| EmailIdentifier (value email : JS.value)
| IssSubIdentifier (value : string) (issuer subject : JS.value).

Section Route.

(** [Number::toString] of the engine (see [js_toString]). *)
Variable Number_toString : Z → string.

(** [extractUserIdentifier(subId)]; [None] is [null], and [Throw] an
    exception of the template literal that builds [value]. *)
Definition extractUserIdentifier (subId : value)
  : result (option user_identifier) :=
  if negb (truthy subId) || negb (typeof_object subId) then Ok None
  else
    let format := get_prop subId "format" in
    if strict_eq format (VStr "email") then
      if negb (truthy (get_prop subId "email")) then Ok None
      else Ok (Some (EmailIdentifier (get_prop subId "email")
                       (get_prop subId "email")))
    else if strict_eq format (VStr "iss_sub") then
      if negb (truthy (get_prop subId "iss")) || negb (truthy (get_prop subId "sub"))
      then Ok None
      else
        iss ← js_toString Number_toString (get_prop subId "iss");
        sub ← js_toString Number_toString (get_prop subId "sub");
        Ok (Some (IssSubIdentifier (iss +:+ "|" +:+ sub)
                    (get_prop subId "iss") (get_prop subId "sub")))
    else Ok None.

(** The loop of [destroyUserSessionsBySubject]. *)
Fixpoint scan_by_subject (subject : value)
    (entries : list (string * session_data)) (destroyedCount : nat) (st : state)
  : nat * state :=
  match entries with
  | [] => (destroyedCount, st)
  | (sid, sessionData) :: rest =>
      let passport := lookup_prop "passport" sessionData in
      if truthy passport && truthy (get_prop passport "user") then
        let user := get_prop passport "user" in
        if strict_eq (get_prop user "id") subject
           || strict_eq (opt_prop (get_prop user "_json") "sub") subject
        then scan_by_subject subject rest (S destroyedCount) (store_destroy sid st)
        else scan_by_subject subject rest destroyedCount st
      else scan_by_subject subject rest destroyedCount st
  end.

(** [destroyUserSessionsBySubject(subject)] *)
Definition destroyUserSessionsBySubject (subject : value) (st : state)
  : promise nat * state :=
  let '(sessions, st) := store_all st in
  match sessions with
  | None => (Resolved 0%nat, st)
  | Some sessions =>
      let '(n, st) := scan_by_subject subject sessions 0 st in
      (Resolved n, st)
  end.

(** What becomes of a request in a handler: a response is sent, or an
    exception escaped from a store callback and none is. *)
Inductive handled : Type :=
| Responded (r : response)
| NoResponse (e : js_error).

(** [userIdentifier.value], the value the handler logs. *)
Definition identifier_value (uid : user_identifier) : value :=
  match uid with
  | EmailIdentifier v _ => v
  | IssSubIdentifier v _ _ => VStr v
  end.

(** The [async] handler of [universalLogoutRoute.post
    ('/global-token-revocation', ...)], on [req.body].  [Throw] is the
    rejection of its promise by an exception raised outside the [try]: in
    [extractUserIdentifier], in the template literal of the 400 reply, or
    in the one of the log line that follows ([JSON.stringify] of the
    headers and of the body, which were parsed from text, raises
    nothing). *)
Definition revocation_handler (body : value) (st : state)
  : result handled * state :=
  if negb (truthy body) then
    (Ok (Responded (Json 400 "invalid_request" "Request body is required")), st)
  else
    let sub_id := get_prop body "sub_id" in
    if negb (truthy sub_id) then
      (Ok (Responded (Json 400 "invalid_request" "sub_id is required")), st)
    else
      match extractUserIdentifier sub_id with
      | Throw err => (Throw err, st)
      | Ok None =>
          match js_toString Number_toString (get_prop sub_id "format") with
          | Throw err => (Throw err, st)
          | Ok format =>
              (Ok (Responded
                     (Json 400 "invalid_request"
                        ("Unrecognized subject identifier format: "
                         +:+ format
                         +:+ ". Supported formats: email, iss_sub"))), st)
          end
      | Ok (Some userIdentifier) =>
          match js_toString Number_toString (identifier_value userIdentifier) with
          | Throw err => (Throw err, st)
          | Ok _ =>
              let '(awaited, st) :=
                match userIdentifier with
                | EmailIdentifier _ email => destroyUserSessions email st
                | IssSubIdentifier _ _ subject =>
                    destroyUserSessionsBySubject subject st
                end in
              match awaited with
              | Resolved destroyedCount =>
                  if (destroyedCount =? 0)%nat
                  then (Ok (Responded (SendStatus 204)), st)
                  else (Ok (Responded (SendStatus 204)), st)
              | Rejected _ =>
                  (Ok (Responded
                         (Json 422 "unprocessable_entity"
                            "Unable to revoke user sessions")), st)
              | Unsettled e => (Ok (NoResponse e), st)
              end
          end
      end.

(** The error handler of the router,
    [universalLogoutRoute.use((err, req, res, next) => ...)]. *)
Definition error_handler (err : js_error) : response :=
  Json 500 "server_error" "An unexpected error occurred".

(** The route as the router runs it: Express 5 (README, technology stack)
    passes the rejection of an [async] handler on to the error handler. *)
Definition post_global_token_revocation (body : value) (st : state)
  : handled * state :=
  match revocation_handler body st with
  | (Ok outcome, st) => (outcome, st)
  | (Throw err, st) => (Responded (error_handler err), st)
  end.

End Route.

(** The record is one [destroyUserSessionsBySubject] destroys: the [id] of
    its principal, or the [sub] of the principal's [_json], is the
    subject. *)
Definition subject_hit (subject : value) (sessionData : session_data) : bool :=
  match principal_of sessionData with
  | Some user =>
      strict_eq (get_prop user "id") subject
      || strict_eq (opt_prop (get_prop user "_json") "sub") subject
  | None => false
  end.

Definition subject_hits (subject : value)
    (sessions : list (string * session_data)) : list string :=
  (filter (λ e, subject_hit subject e.2) sessions).*1.



(** *** Token validation *)

(** The decoded header and payload of a token, as far as they are looked
    at. *)
Record jwt_header : Type := mkHeader { typ : string; alg : string; kid : string }.

Record jwt_payload : Type := mkPayload {
  iss : option string;
  aud : list string;
  exp : option Z;
  nbf : option Z
}.

Record decoded_jwt : Type := mkDecoded { header : jwt_header; payload : jwt_payload }.

Definition JsonWebTokenError (msg : string) : js_error :=
  {| name := "JsonWebTokenError"; message := msg |}.
Definition NotBeforeError (msg : string) : js_error :=
  {| name := "NotBeforeError"; message := msg |}.
Definition TokenExpiredError (msg : string) : js_error :=
  {| name := "TokenExpiredError"; message := msg |}.
Definition Error (msg : string) : js_error :=
  {| name := "Error"; message := msg |}.

(** [s.endsWith('/') ? s.slice(0, -1) : s] *)
Fixpoint strip_trailing_slash (s : string) : string :=
  match s with
  | EmptyString => EmptyString
  | String c EmptyString => if Ascii.eqb c "/"%char then EmptyString else s
  | String c rest => String c (strip_trailing_slash rest)
  end.

(** [s.split(' ')] *)
Fixpoint split_space (s : string) : list string :=
  match s with
  | EmptyString => [EmptyString]
  | String c rest =>
      if Ascii.eqb c " "%char then EmptyString :: split_space rest
      else match split_space rest with
           | [] => [String c EmptyString]
           | w :: ws => String c w :: ws
           end
  end.

(** [initializeJwksClient(orgUrl)]: the value it assigns to
    [jwksClientInstance], with [jwksClient] for the factory of the
    [jwks-rsa] package applied to the [jwksUri] option. *)
Definition initializeJwksClient (jwksClient : string → string → result string)
    (orgUrl : string) : option (string → result string) :=
  let baseUrl := strip_trailing_slash orgUrl in
  Some (jwksClient (baseUrl +:+ "/oauth2/v1/keys")).

(** The string holds no space. *)
Fixpoint no_space (s : string) : bool :=
  match s with
  | EmptyString => true
  | String c rest => negb (Ascii.eqb c " "%char) && no_space rest
  end.

Section Validator.

(** The two operations of the [jsonwebtoken] package that read the bytes of
    a token: [jwt.decode(token, {complete: true})], [None] for [null], and
    the check of the signature of [token] for an algorithm under a public
    key. *)
Variable jwt_decode : string → option decoded_jwt.
Variable jws_verify : string → string → string → bool.

(** [jwksClientInstance]: [None] until [initializeJwksClient] ran, then the
    client's [getSigningKey], from a key id to the public key or the
    client's error. *)
Variable jwksClientInstance : option (string → result string).

(** Seconds since the epoch, [Math.floor(Date.now() / 1000)]. *)
Variable clockTimestamp : Z.

(** [Number::toString] of the engine (see [js_toString]). *)
Variable Number_toString : Z → string.

(** [getSigningKey(header)] *)
Definition getSigningKey (h : jwt_header) : result string :=
  match jwksClientInstance with
  | None => Throw (Error "JWKS client not initialized")
  | Some client => client (kid h)
  end.

(** Modelled from the spec: [jwt.verify(token, key, options, callback)] of
    the external [jsonwebtoken] package, for the options this code passes
    ([algorithms], [issuer], [audience], [clockTolerance]).  The checks and
    their errors are the validator's of section 4.4, in the order the
    package documents: algorithm, signature, not-before, expiry, audience,
    issuer. *)
Definition jwt_verify (token signingKey : string) (algorithms : list string)
    (issuer audience : string) (clockTolerance : Z) : result jwt_payload :=
  match jwt_decode token with
  | None => Throw (JsonWebTokenError "jwt malformed")
  | Some decoded =>
      let p := payload decoded in
      if negb (existsb (String.eqb (alg (header decoded))) algorithms) then
        Throw (JsonWebTokenError "invalid algorithm")
      else if negb (jws_verify token (alg (header decoded)) signingKey) then
        Throw (JsonWebTokenError "invalid signature")
      else if match nbf p with
              | Some t => (clockTimestamp + clockTolerance <? t)%Z
              | None => false
              end then
        Throw (NotBeforeError "jwt not active")
      else if match exp p with
              | Some t => (t + clockTolerance <=? clockTimestamp)%Z
              | None => false
              end then
        Throw (TokenExpiredError "jwt expired")
      else if negb (existsb (String.eqb audience) (aud p)) then
        Throw (JsonWebTokenError ("jwt audience invalid. expected: " +:+ audience))
      else if negb (bool_decide (iss p = Some issuer)) then
        Throw (JsonWebTokenError ("jwt issuer invalid. expected: " +:+ issuer))
      else Ok p
  end.

(** [validateLogoutToken(token, expectedAudience, expectedIssuer)]; a token
    type other than [global-token-revocation+jwt] is only logged. *)
Definition validateLogoutToken (token expectedAudience expectedIssuer : string)
  : result jwt_payload :=
  match jwt_decode token with
  | None => Throw (Error "Invalid token format")
  | Some decoded =>
      signingKey ← getSigningKey (header decoded);
      jwt_verify token signingKey ["RS256"; "RS384"; "RS512"]
        expectedIssuer expectedAudience 30
  end.

(** The middleware either calls [next()], with [req.logoutToken] set, or
    replies. *)
Inductive auth_outcome : Type :=
| Next (logoutToken : jwt_payload)
| Reply (r : response).

(** [universalLogoutAuth(orgUrl, revocationEndpoint)] applied to a request
    with the header [req.headers.authorization]. *)
Definition universalLogoutAuth (orgUrl revocationEndpoint : string)
    (authorization : option string) : auth_outcome :=
  let expectedIssuer := strip_trailing_slash orgUrl in
  match authorization with
  | None | Some EmptyString =>
      Reply (Json 401 "unauthorized" "Missing authorization header")
  | Some authHeader =>
      let parts := split_space authHeader in
      let scheme := default EmptyString (parts !! 0%nat) in
      let token := default EmptyString (parts !! 1%nat) in
      if negb (String.eqb (toLowerCase scheme) "bearer") || negb (truthy (VStr token))
      then Reply (Json 401 "unauthorized"
                    "Invalid authorization scheme. Expected: Bearer {token}")
      else
        match validateLogoutToken token revocationEndpoint expectedIssuer with
        | Ok payload => Next payload
        | Throw err =>
            if String.eqb (name err) "TokenExpiredError" then
              Reply (Json 401 "unauthorized" "Token has expired")
            else if String.eqb (name err) "JsonWebTokenError" then
              Reply (Json 401 "unauthorized" ("Invalid token: " +:+ message err))
            else Reply (Json 401 "unauthorized" "Token validation failed")
        end
  end.

(** The endpoint as the application mounts it (README, table of routes:
    [POST /api/global-token-revocation], authenticated by the Okta token):
    the middleware, then the route. *)
Definition global_token_revocation (orgUrl revocationEndpoint : string)
    (authorization : option string) (body : value) (st : state)
  : handled * state :=
  match universalLogoutAuth orgUrl revocationEndpoint authorization with
  | Reply r => (Responded r, st)
  | Next _ => post_global_token_revocation Number_toString body st
  end.

End Validator.

End UniversalLogout.

(** ** The wire-transfer router ([routes/wire-transfer.mjs]) *)

Module WireTransfer.

(** MFA verification timeout (5 minutes), in milliseconds. *)
Definition MFA_TIMEOUT : Z := 5 * 60 * 1000.

(** The fields of [req.session] the router touches: the step-up marker, a
    boolean with the time it was acquired ([Date.now()], milliseconds), and
    the destination to return to.  [None] is an absent field. *)
Record session : Type := mkSession {
  mfaVerified : option bool;
  mfaVerifiedAt : option Z;
  mfaReturnUrl : option string
}.

(** The fields of the form, [req.body]; [None] is an absent field. *)
Record transfer_form : Type := mkForm {
  fromAccount : option string;
  recipientName : option string;
  recipientBank : option string;
  routingNumber : option string;
  accountNumber : option string;
  amount : option string;
  memo : option string
}.

Record request : Type := mkRequest {
  isAuthenticated : bool;
  req_session : session;
  query_error : option string;
  body : transfer_form
}.

Record account : Type := mkAccount { id : string; label : string; balance : float }.

(** The [transfer] object handed to the confirmation view. *)
Record transfer : Type := mkTransfer {
  t_fromAccount : string;
  t_recipientName : string;
  t_recipientBank : string;
  t_routingNumber : string;
  t_accountNumber : string;
  t_amount : string;
  t_memo : string;
  t_refNumber : string;
  t_timestamp : string
}.

(** [res.redirect(path)], [res.render('wire-transfer', {authenticated,
    accounts, error, formData})] and [res.render('wire-transfer-confirm',
    {authenticated, transfer})]. *)
Inductive response : Type :=
| Redirect (path : string)
| RenderForm (authenticated : bool) (accounts : list account)
    (error : option string) (formData : option transfer_form)
| RenderConfirm (authenticated : bool) (details : transfer).

(** A middleware calls [next()] or ends the request; either way it may have
    written to the session. *)
Inductive step : Type :=
| Next (req : request)
| Done (r : response) (req : request).

Definition ensureLoggedIn (req : request) : step :=
  if isAuthenticated req then Next req else Done (Redirect "/login") req.

(** Truthiness of an optional boolean and of an optional number. *)
Definition truthy_flag (b : option bool) : bool := default false b.
Definition truthy_time (t : option Z) : bool :=
  match t with
  | Some n => negb (n =? 0)%Z
  | None => false
  end.

Definition set_mfaReturnUrl (url : string) (req : request) : request :=
  {| isAuthenticated := isAuthenticated req;
     req_session := {| mfaVerified := mfaVerified (req_session req);
                       mfaVerifiedAt := mfaVerifiedAt (req_session req);
                       mfaReturnUrl := Some url |};
     query_error := query_error req;
     body := body req |}.

Definition set_session (s : session) (req : request) : request :=
  {| isAuthenticated := isAuthenticated req;
     req_session := s;
     query_error := query_error req;
     body := body req |}.

(** [ensureMfaVerified(req, res, next)], with [now] for [Date.now()]. *)
Definition ensureMfaVerified (now : Z) (req : request) : step :=
  let mfaVerified := mfaVerified (req_session req) in
  let mfaVerifiedAt := mfaVerifiedAt (req_session req) in
  if truthy_flag mfaVerified && truthy_time mfaVerifiedAt
     && (now - default 0 mfaVerifiedAt <? MFA_TIMEOUT)%Z
  then Next req
  else Done (Redirect "/stepup-mfa") (set_mfaReturnUrl "/wire-transfer" req).

(** [router.METHOD('/', mw1, ..., handler)]: the middlewares run in order
    until one ends the request. *)
Fixpoint run (mws : list (request → step)) (handler : request → response)
    (req : request) : response * request :=
  match mws with
  | [] => (handler req, req)
  | mw :: rest =>
      match mw req with
      | Next req' => run rest handler req'
      | Done r req' => (r, req')
      end
  end.

Definition is_space (c : ascii) : bool :=
  let n := N_of_ascii c in ((9 <=? n) && (n <=? 13) || (n =? 32))%N.

Fixpoint trim_start (s : string) : string :=
  match s with
  | String c rest => if is_space c then trim_start rest else s
  | EmptyString => EmptyString
  end.

Fixpoint trim_end (s : string) : string :=
  match s with
  | EmptyString => EmptyString
  | String c rest =>
      match trim_end rest with
      | EmptyString => if is_space c then EmptyString else String c EmptyString
      | rest' => String c rest'
      end
  end.

(** [s.trim()] *)
Definition trim (s : string) : string := trim_end (trim_start s).

Definition is_digit (c : ascii) : bool :=
  let n := N_of_ascii c in ((48 <=? n) && (n <=? 57))%N.

Fixpoint all_digits (s : string) : bool :=
  match s with
  | EmptyString => true
  | String c rest => is_digit c && all_digits rest
  end.

(** [/^\d{9}$/.test(s)] *)
Definition nine_digits (s : string) : bool :=
  (String.length s =? 9)%nat && all_digits s.

(** [!x || !x.trim()] *)
Definition blank (x : option string) : bool :=
  match x with
  | None => true
  | Some s => negb (truthy (VStr s)) || negb (truthy (VStr (trim s)))
  end.

Fixpoint join_space (l : list string) : string :=
  match l with
  | [] => ""
  | [x] => x
  | x :: rest => x +:+ " " +:+ join_space rest
  end.

Set Warnings "-inexact-float".

(** Source accounts (hardcoded to match dashboard display). *)
Definition SOURCE_ACCOUNTS : list account :=
  [ {| id := "checking"; label := "Checking Account (****4582)";
       balance := 12458.32%float |};
    {| id := "savings"; label := "Savings Account (****7891)";
       balance := 45230.00%float |} ].

(** [SOURCE_ACCOUNTS.find(a => a.id === fromAccount)] *)
Definition find_account (fromAccount : option string) : option account :=
  match fromAccount with
  | None => None
  | Some x => List.find (λ a, String.eqb (id a) x) SOURCE_ACCOUNTS
  end.

Section Handlers.

(** Built-ins on floating-point numbers and the environment of the POST
    handler: [parseFloat] (on an absent field it is [NaN]),
    [Number.prototype.toFixed(2)], and the reference number and the
    timestamp, which come from [Date.now()], [Math.random()] and the
    locale. *)
Variable parseFloat : option string → float.
Variable toFixed2 : float → string.
Variable refNumber : string.
Variable timestamp : string.

(** The handler of GET: the form, with [req.query.error || null] and an
    empty [formData]. *)
Definition get_handler (req : request) : response :=
  RenderForm (isAuthenticated req) SOURCE_ACCOUNTS
    (match query_error req with
     | Some e => if truthy (VStr e) then Some e else None
     | None => None
     end)
    (Some (mkForm None None None None None None None)).

(** The validation of the POST handler: the messages pushed on [errors], in
    order. *)
Definition validate (f : transfer_form) : list string :=
  let parsedAmount := parseFloat (amount f) in
  let sourceAccount := find_account (fromAccount f) in
  (if negb (truthy (VStr (default "" (fromAccount f))))
      || negb (bool_decide (is_Some sourceAccount))
   then ["Please select a valid source account."] else [])
  ++ (if blank (recipientName f) then ["Recipient name is required."] else [])
  ++ (if blank (recipientBank f) then ["Recipient bank name is required."] else [])
  ++ (if negb (truthy (VStr (default "" (routingNumber f))))
         || negb (nine_digits (trim (default "" (routingNumber f))))
      then ["Routing number must be exactly 9 digits."] else [])
  ++ (if blank (accountNumber f) then ["Account number is required."] else [])
  ++ (if negb (truthy (VStr (default "" (amount f))))
         || PrimFloat.is_nan parsedAmount
         || PrimFloat.leb parsedAmount 0%float
      then ["Please enter a valid amount greater than $0.00."] else [])
  ++ match sourceAccount with
     | Some a =>
         if PrimFloat.ltb (balance a) parsedAmount
         then ["Insufficient funds. Available balance: $" +:+ toFixed2 (balance a)]
         else []
     | None => []
     end.

(** The handler of POST: validate and process the wire transfer. *)
Definition post_handler (req : request) : response :=
  let f := body req in
  let errors := validate f in
  if (0 <? length errors)%nat then
    RenderForm (isAuthenticated req) SOURCE_ACCOUNTS (Some (join_space errors)) (Some f)
  else
    RenderConfirm (isAuthenticated req)
      {| t_fromAccount := from_option label "" (find_account (fromAccount f));
         t_recipientName := trim (default "" (recipientName f));
         t_recipientBank := trim (default "" (recipientBank f));
         t_routingNumber := trim (default "" (routingNumber f));
         t_accountNumber := trim (default "" (accountNumber f));
         t_amount := toFixed2 (parseFloat (amount f));
         t_memo := match memo f with
                   | Some m => if truthy (VStr m) then trim m else "N/A"
                   | None => "N/A"
                   end;
         t_refNumber := refNumber;
         t_timestamp := timestamp |}.

(** [router.get('/', ensureLoggedIn, ensureMfaVerified, ...)] *)
Definition router_get (now : Z) (req : request) : response * request :=
  run [ensureLoggedIn; ensureMfaVerified now] get_handler req.

(** [router.post('/', ensureLoggedIn, ...)] *)
Definition router_post (req : request) : response * request :=
  run [ensureLoggedIn] post_handler req.

End Handlers.

End WireTransfer.

(** ** The preferences store (the module of [getUserPreferences]) *)

Module Preferences.

(** A preferences object, and the [users] object of the data file: objects
    used as maps from a name to a value. *)
Abbreviation prefs := (gmap string value).

(** The file [preferences.json]: absent; present but [readFileSync] or
    [JSON.parse] throws on it; or holding a text that parses to
    [{users: {id: {...}, ...}}], the shape this module writes. *)
Inductive file : Type :=
| NoFile
| Unreadable
| Content (users : gmap string prefs).

(** The file and whether [writeFileSync] succeeds on it. *)
Record fs : Type := mkFs { db : file; writable : bool }.

(** [JSON.stringify] leaves out a property whose value is [undefined] or a
    function. *)
Definition storable (v : value) : bool :=
  match v with
  | VUndefined | VFun _ => false
  | _ => true
  end.

(** [JSON.parse(JSON.stringify(v))] for a value that is storable. *)
Fixpoint jsonify (v : value) : value :=
  match v with
  | VArr items =>
      VArr (List.map (λ x, if storable x then jsonify x else VNull) items)
  | VObj props =>
      VObj ((fix go (l : list (string * value)) : list (string * value) :=
               match l with
               | [] => []
               | (k, x) :: rest =>
                   if storable x then (k, jsonify x) :: go rest else go rest
               end) props)
  | _ => v
  end.

(** A preferences object as it comes back from the file. *)
Definition stored (p : prefs) : prefs :=
  omap (λ v, if storable v then Some (jsonify v) else None) p.

(** [loadData()]: the [users] of the data, [{ users: {} }] when the file is
    absent or cannot be read. *)
Definition loadData (f : fs) : gmap string prefs :=
  match db f with
  | Content users => users
  | NoFile | Unreadable => ∅
  end.

(** [saveData(data)]: a failure of the write is logged and nothing else; the
    file is then taken to be as it was. *)
Definition saveData (users : gmap string prefs) (f : fs) : fs :=
  if writable f then {| db := Content (stored <$> users); writable := true |}
  else f.

(** [getDefaultPreferences()], with the two readings of the clock. *)
Definition getDefaultPreferences (created updated : string) : prefs :=
  list_to_map
    [("email_notifications", VNum 1); ("sms_notifications", VNum 0);
     ("push_notifications", VNum 1); ("transaction_alerts", VNum 1);
     ("marketing_emails", VNum 0); ("theme", VStr "light");
     ("language", VStr "en"); ("currency_display", VStr "USD");
     ("date_format", VStr "MM/DD/YYYY"); ("created_at", VStr created);
     ("updated_at", VStr updated)].

(** The names that every object inherits from [Object.prototype]. *)
Definition Object_prototype : list string :=
  ["constructor"; "__defineGetter__"; "__defineSetter__"; "hasOwnProperty";
   "__lookupGetter__"; "__lookupSetter__"; "isPrototypeOf";
   "propertyIsEnumerable"; "toString"; "valueOf"; "__proto__";
   "toLocaleString"].

(** [data.users[oktaUserId]]: a preferences object of the file, a member
    inherited from [Object.prototype] (truthy), or [undefined]. *)
Inductive member : Type :=
| Own (p : prefs)
| Inherited (name : string)
| Missing.

Definition users_get (users : gmap string prefs) (oktaUserId : string) : member :=
  match users !! oktaUserId with
  | Some p => Own p
  | None =>
      if bool_decide (oktaUserId ∈ Object_prototype) then Inherited oktaUserId
      else Missing
  end.

(** [getUserPreferences(oktaUserId)] *)
Definition getUserPreferences (oktaUserId : string) (f : fs) : member :=
  users_get (loadData f) oktaUserId.

(** [createUserPreferences(oktaUserId, email)] *)
Definition createUserPreferences (created updated : string)
    (oktaUserId : string) (email : value) (f : fs) : member * fs :=
  let users := loadData f in
  match users_get users oktaUserId with
  | Missing =>
      let p := getDefaultPreferences created updated
               ∪ <["okta_user_id" := VStr oktaUserId]> (<["email" := email]> ∅) in
      (Own p, saveData (<[oktaUserId := p]> users) f)
  | found => (found, f)
  end.

Definition allowedFields : list string :=
  ["email_notifications"; "sms_notifications"; "push_notifications";
   "transaction_alerts"; "marketing_emails"; "theme"; "language";
   "currency_display"; "date_format"].

Fixpoint index_entries (i : nat) (items : list value) : list (string * value) :=
  match items with
  | [] => []
  | x :: rest => (NilZero.string_of_uint (Nat.to_uint i), x) :: index_entries (S i) rest
  end.

Fixpoint chars (s : string) : list value :=
  match s with
  | EmptyString => []
  | String c rest => VStr (String c EmptyString) :: chars rest
  end.

(** [Object.entries(v)] *)
Definition Object_entries (v : value) : result (list (string * value)) :=
  match v with
  | VUndefined | VNull =>
      Throw (TypeError "Cannot convert undefined or null to object")
  | VObj props => Ok props
  | VArr items => Ok (index_entries 0 items)
  | VStr s => Ok (index_entries 0 (chars s))
  | VBool _ | VNum _ | VFun _ => Ok []
  end.

(** The loop of [updateUserPreferences] on the preferences object of the
    user. *)
Fixpoint assign_allowed (entries : list (string * value)) (p : prefs) : prefs :=
  match entries with
  | [] => p
  | (key, v) :: rest =>
      if bool_decide (key ∈ allowedFields)
      then assign_allowed rest (<[key := v]> p)
      else assign_allowed rest p
  end.

(** [updateUserPreferences(oktaUserId, preferences)], with the reading of
    the clock; [None] is [null].  For an inherited member the assignments
    land on the built-in object, which is outside this model. *)
Definition updateUserPreferences (now : string) (oktaUserId : string)
    (preferences : value) (f : fs) : result (option member) * fs :=
  let users := loadData f in
  match users_get users oktaUserId with
  | Missing => (Ok None, f)
  | Inherited name =>
      match Object_entries preferences with
      | Throw e => (Throw e, f)
      | Ok _ => (Ok (Some (Inherited name)), saveData users f)
      end
  | Own p =>
      match Object_entries preferences with
      | Throw e => (Throw e, f)
      | Ok entries =>
          let p := <["updated_at" := VStr now]> (assign_allowed entries p) in
          (Ok (Some (Own p)), saveData (<[oktaUserId := p]> users) f)
      end
  end.

End Preferences.

(** ** Sample data *)

Module Samples.
Import SessionStore.

(** A session record as the login flow leaves it in the store. *)
Definition session_of (user : value) : session_data :=
  [("cookie", VObj [("originalMaxAge", VNull); ("httpOnly", VBool true)]);
   ("passport", VObj [("user", user)])].

(** A principal shaped like a passport profile. *)
Definition profile (id email : string) : value :=
  VObj [("id", VStr id);
        ("displayName", VStr "Ann Lee");
        ("emails", VArr [VObj [("value", VStr email)]])].

(** The directory knows [s1] of ann; the store also holds [s2] of ann,
    which was never registered. *)
Definition st_out_of_sync : state :=
  {| userSessions := {["ann@example.com" := {["s1"]}]};
     store := [("s1", session_of (profile "00u1" "ann@example.com"));
               ("s2", session_of (profile "00u1" "Ann@Example.com"));
               ("s3", session_of (profile "00u2" "bob@example.com"))];
     calls := [] |}.

(** An empty directory (as after a restart of the process) and a store
    that holds a session of ann. *)
Definition st_unregistered : state :=
  {| userSessions := ∅;
     store := [("s7", session_of (profile "00u1" "ann@example.com"))];
     calls := [] |}.

(** A principal whose first listed email is an old address and whose
    primary email is the current one. *)
Definition two_emails : value :=
  VObj [("id", VStr "00u1");
        ("emails", VArr [VObj [("value", VStr "old@example.com")]]);
        ("email", VStr "ann@example.com")].

Definition st_two_emails : state :=
  {| userSessions := ∅;
     store := [("s5", session_of two_emails)];
     calls := [] |}.

(** A token store for the validator: what [jwt.decode] reads from three
    token strings, a signature check that accepts the key of the issuer,
    and a key client that knows the key id [k1] only. *)
Definition okta_claims (expires : Z) : UniversalLogout.jwt_payload :=
  {| UniversalLogout.iss := Some "https://org.okta.com";
     UniversalLogout.aud := ["https://bank.example/api/global-token-revocation"];
     UniversalLogout.exp := Some expires;
     UniversalLogout.nbf := None |}.

Definition sample_decode (token : string) : option UniversalLogout.decoded_jwt :=
  if String.eqb token "valid.jwt.sig" then
    Some (UniversalLogout.mkDecoded
            (UniversalLogout.mkHeader "global-token-revocation+jwt" "RS256" "k1")
            (okta_claims 5000))
  else if String.eqb token "expired.jwt.sig" then
    Some (UniversalLogout.mkDecoded
            (UniversalLogout.mkHeader "global-token-revocation+jwt" "RS256" "k1")
            (okta_claims 1000))
  else if String.eqb token "rotated.jwt.sig" then
    Some (UniversalLogout.mkDecoded
            (UniversalLogout.mkHeader "global-token-revocation+jwt" "RS256" "k0")
            (okta_claims 1000))
  else None.

Definition sample_jws_verify (token alg key : string) : bool :=
  String.eqb key "okta-public-key".

Definition sample_jwks : option (string → result string) :=
  Some (λ kid,
          if String.eqb kid "k1" then Ok "okta-public-key"
          else Throw {| name := "SigningKeyNotFoundError";
                        message := "Unable to find a signing key that matches" |}).

(** A request body in the email format and one in the iss_sub format. *)
(** [Number::toString] on the safe integers: the decimal digits. *)
Definition decimal (n : Z) : string := NilZero.string_of_int (Z.to_int n).


(** A body whose [format] is an object with a member [toString]:
    [{"sub_id": {"format": {"toString": 1}}}]. *)
Definition body_unprintable_format : value :=
  VObj [("sub_id", VObj [("format", VObj [("toString", VNum 1)])])].


Definition body_iss_sub (iss sub : string) : value :=
  VObj [("sub_id", VObj [("format", VStr "iss_sub"); ("iss", VStr iss);
                         ("sub", VStr sub)])].

(** A session whose marker was set at the reading [t] of the clock, and a
    form that passes the validation. *)
Definition marked_at (t : Z) : WireTransfer.session :=
  {| WireTransfer.mfaVerified := Some true;
     WireTransfer.mfaVerifiedAt := Some t;
     WireTransfer.mfaReturnUrl := None |}.

Definition valid_form : WireTransfer.transfer_form :=
  {| WireTransfer.fromAccount := Some "checking";
     WireTransfer.recipientName := Some "Bob Ray";
     WireTransfer.recipientBank := Some "First Bank";
     WireTransfer.routingNumber := Some "021000021";
     WireTransfer.accountNumber := Some "12345678";
     WireTransfer.amount := Some "250";
     WireTransfer.memo := None |}.

Definition request_with (s : WireTransfer.session) : WireTransfer.request :=
  {| WireTransfer.isAuthenticated := true;
     WireTransfer.req_session := s;
     WireTransfer.query_error := None;
     WireTransfer.body := valid_form |}.

(** [parseFloat] and [toFixed(2)] on the one amount of the samples. *)
Definition sample_parseFloat (x : option string) : float :=
  match x with
  | Some s => if String.eqb s "250" then 250%float else PrimFloat.nan
  | None => PrimFloat.nan
  end.

Definition sample_toFixed2 (x : float) : string :=
  if PrimFloat.eqb x 250%float then "250.00" else "12458.32".

(** The preferences file with the record of ann, and a request that names an
    allowed field and two that are not. *)
Definition ann_prefs : Preferences.prefs :=
  Preferences.getDefaultPreferences "2026-01-01T00:00:00.000Z"
    "2026-01-01T00:00:00.000Z"
  ∪ <["okta_user_id" := VStr "00u1"]> (<["email" := VStr "ann@example.com"]> ∅).

Definition fs_ann (writable : bool) : Preferences.fs :=
  {| Preferences.db := Preferences.Content {["00u1" := ann_prefs]};
     Preferences.writable := writable |}.

Definition prefs_request : value :=
  VObj [("theme", VStr "dark"); ("email", VStr "eve@example.com");
        ("okta_user_id", VStr "00u9")].

End Samples.

(** * Properties *)

(** ** The session directory *)

Module SessionStoreFacts.
Import SessionStore.

Lemma has_true k (us : gmap string (gset string)) :
  has k us = true ↔ is_Some (us !! k).
Proof. unfold has. by rewrite bool_decide_eq_true. Qed.

Lemma has_false k (us : gmap string (gset string)) :
  has k us = false ↔ us !! k = None.
Proof.
  unfold has. rewrite bool_decide_eq_false. by rewrite eq_None_not_Some.
Qed.

Lemma truthy_VStr s : truthy (VStr s) = true ↔ s ≠ "".
Proof.
  simpl. rewrite negb_true_iff. split.
  - intros H ->. by rewrite String.eqb_refl in H.
  - intros H. by apply String.eqb_neq.
Qed.

(** What [registerUserSession] leaves in the directory. *)
Lemma registerUserSession_lookup email sid st :
  email ≠ "" → sid ≠ "" →
  userSessions (registerUserSession email sid st)
  = <[toLowerCase email :=
        default ∅ (userSessions st !! toLowerCase email) ∪ {[sid]}]>
      (userSessions st).
Proof.
  intros He Hs. unfold registerUserSession.
  apply truthy_VStr in He as ->. apply truthy_VStr in Hs as ->. simpl.
  destruct (has _ _) eqn:Hhas; simpl.
  - apply has_true in Hhas as [ids Hids]. rewrite Hids. simpl.
    apply map_eq. intros k. rewrite lookup_alter, lookup_insert.
    destruct (decide (toLowerCase email = k)) as [<-|]; [|done].
    by rewrite Hids.
  - apply has_false in Hhas. rewrite Hhas. simpl.
    apply map_eq. intros k. rewrite lookup_alter, !lookup_insert.
    repeat case_decide; by simplify_eq/=.
Qed.

(** What [unregisterUserSession] leaves in the directory. *)
Lemma unregisterUserSession_lookup email sid st :
  email ≠ "" → sid ≠ "" →
  userSessions (unregisterUserSession email sid st)
  = match userSessions st !! toLowerCase email with
    | Some ids =>
        if decide (ids ∖ {[sid]} = ∅) then delete (toLowerCase email) (userSessions st)
        else <[toLowerCase email := ids ∖ {[sid]}]> (userSessions st)
    | None => userSessions st
    end.
Proof.
  intros He Hs. unfold unregisterUserSession.
  apply truthy_VStr in He as ->. apply truthy_VStr in Hs as ->. simpl.
  destruct (has _ _) eqn:Hhas.
  - apply has_true in Hhas as [ids Hids]. rewrite Hids. simpl.
    assert (alter (λ ids, ids ∖ {[sid]}) (toLowerCase email) (userSessions st)
              !!! toLowerCase email = ids ∖ {[sid]}) as ->.
    { apply lookup_total_correct. rewrite lookup_alter.
      case_decide; [|done]. by rewrite Hids. }
    destruct (decide (ids ∖ {[sid]} = ∅)) as [Hempty|Hne].
    + rewrite Hempty, size_empty. simpl.
      apply map_eq. intros k. rewrite !lookup_delete, lookup_alter.
      repeat case_decide; by simplify_eq/=.
    + destruct (size (ids ∖ {[sid]}) =? 0)%nat eqn:Hsz.
      * apply Nat.eqb_eq, size_empty_iff in Hsz. by apply leibniz_equiv in Hsz.
      * apply map_eq. intros k. rewrite lookup_alter, lookup_insert.
        case_decide; [|done]. by rewrite Hids.
  - apply has_false in Hhas. by rewrite Hhas.
Qed.

(** *** The two loops of [destroyUserSessions] *)

Lemma without_nil (l : list (string * session_data)) : without [] l = l.
Proof.
  unfold without. induction l as [|e l IH]; [done|].
  rewrite filter_cons_True; [by rewrite IH | apply not_elem_of_nil].
Qed.

Lemma without_cons sid sids (l : list (string * session_data)) :
  without sids (filter (λ e, e.1 ≠ sid) l) = without (sid :: sids) l.
Proof.
  unfold without. rewrite list_filter_filter. apply list_filter_iff.
  intros e. rewrite not_elem_of_cons. tauto.
Qed.

Lemma elem_of_without sids (l : list (string * session_data)) e :
  e ∈ without sids l ↔ (e.1 ∉ sids) ∧ (e ∈ l).
Proof. unfold without. by rewrite list_elem_of_filter. Qed.

Lemma destroy_members_spec sids n st :
  destroy_members sids n st
  = (n + length sids,
     mkState (userSessions st) (without sids (store st))
       (calls st ++ map CallDestroy sids)).
Proof.
  revert n st. induction sids as [|sid sids IH]; intros n st; simpl.
  - rewrite without_nil, Nat.add_0_r, app_nil_r. by destruct st.
  - rewrite IH. simpl. rewrite without_cons, <- app_assoc. simpl.
    do 2 f_equal. lia.
Qed.

(** One record of the scan, by what [email_hit] and [scannable] say. *)
Lemma scan_by_email_cons ne sid data rest n st :
  scannable data = true →
  scan_by_email ne ((sid, data) :: rest) n st
  = if email_hit ne data
    then scan_by_email ne rest (S n) (store_destroy sid st)
    else scan_by_email ne rest n st.
Proof.
  unfold scannable, email_hit, principal_of. simpl.
  destruct (truthy (lookup_prop "passport" data)
            && truthy (get_prop (lookup_prop "passport" data) "user")); [|done].
  destruct (userEmail_of _) as [| |b|z|s|items|props|f]; simpl; try done;
    try (intros Hf; apply negb_true_iff in Hf; by rewrite Hf).
  intros _. by destruct (negb (String.eqb s "")).
Qed.

Lemma email_hits_cons ne sid data rest :
  email_hits ne ((sid, data) :: rest)
  = if email_hit ne data then sid :: email_hits ne rest else email_hits ne rest.
Proof.
  unfold email_hits. rewrite filter_cons. simpl.
  destruct (email_hit ne data); by case_decide.
Qed.

Lemma scan_by_email_spec ne entries n st :
  Forall (λ e, scannable e.2 = true) entries →
  scan_by_email ne entries n st
  = (Ok (n + length (email_hits ne entries)),
     mkState (userSessions st) (without (email_hits ne entries) (store st))
       (calls st ++ map CallDestroy (email_hits ne entries))).
Proof.
  intros Hall. revert n st.
  induction Hall as [|[sid data] rest Hdata _ IH]; intros n st.
  - simpl. rewrite without_nil, Nat.add_0_r, app_nil_r. by destruct st.
  - simpl in Hdata. rewrite scan_by_email_cons, email_hits_cons by done.
    destruct (email_hit ne data); rewrite IH; [|done].
    simpl. rewrite without_cons, <- app_assoc. simpl. do 2 f_equal. lia.
Qed.

(** What a call of [destroyUserSessions] does when every record of the
    store can be scanned: the members of the entry are destroyed and counted,
    the entry is deleted, the store is enumerated once, and the records that
    are left and hit are destroyed and counted. *)
Lemma destroyUserSessions_spec email st ids :
  email ≠ "" →
  Forall (λ e, scannable e.2 = true) (store st) →
  ids = default ∅ (userSessions st !! toLowerCase email) →
  let ne := toLowerCase email in
  let hits := email_hits ne (without (elements ids) (store st)) in
  destroyUserSessions (VStr email) st
  = (Resolved (size ids + length hits),
     mkState (delete ne (userSessions st))
       (without hits (without (elements ids) (store st)))
       (calls st ++ map CallDestroy (elements ids) ++ CallAll :: map CallDestroy hits)).
Proof.
  intros He Hall Hids ne hits. unfold destroyUserSessions.
  apply truthy_VStr in He as ->. cbn [negb call_toLowerCase]. fold ne.
  assert (Forall (λ e, scannable e.2 = true) (without (elements ids) (store st)))
    as Hall'.
  { apply Forall_forall. intros e [_ He]%elem_of_without.
    by eapply Forall_forall in Hall. }
  fold ne in Hids. destruct (has ne (userSessions st)) eqn:Hhas.
  - apply has_true in Hhas as [ids' Hids']. rewrite Hids' in Hids.
    simpl in Hids. subst ids'.
    rewrite (lookup_total_correct _ _ _ Hids'), destroy_members_spec.
    cbn [store_all set_userSessions userSessions store calls].
    rewrite scan_by_email_spec by done.
    cbn [userSessions store calls]. fold hits.
    by rewrite <- !app_assoc.
  - apply has_false in Hhas. rewrite Hhas in Hids. simpl in Hids.
    subst ids. subst hits. rewrite elements_empty, without_nil in *.
    cbn [store_all userSessions store calls].
    rewrite scan_by_email_spec by done.
    cbn [userSessions store calls map app].
    rewrite delete_id by done. rewrite size_empty. by rewrite <- !app_assoc.
Qed.

(** *** The directory invariant *)

Lemma scan_by_email_userSessions ne entries n st :
  userSessions (scan_by_email ne entries n st).2 = userSessions st.
Proof.
  revert n st. induction entries as [|[sid data] rest IH]; intros n st; [done|].
  simpl. repeat case_match; rewrite ?IH; done.
Qed.

(** The directory after [destroyUserSessions], whatever the scan does. *)
Lemma destroyUserSessions_userSessions email st :
  email ≠ "" →
  userSessions (destroyUserSessions (VStr email) st).2
  = delete (toLowerCase email) (userSessions st).
Proof.
  intros He. unfold destroyUserSessions.
  apply truthy_VStr in He as ->. cbn [negb call_toLowerCase].
  destruct (has _ _) eqn:Hhas.
  - rewrite destroy_members_spec.
    cbn [store_all set_userSessions userSessions store calls].
    match goal with
    | |- context [scan_by_email ?a ?b ?c ?d] =>
        pose proof (scan_by_email_userSessions a b c d) as Hscan;
        destruct (scan_by_email a b c d) as [[k|e] st']
    end; exact Hscan.
  - apply has_false in Hhas.
    cbn [store_all userSessions store calls].
    match goal with
    | |- context [scan_by_email ?a ?b ?c ?d] =>
        pose proof (scan_by_email_userSessions a b c d) as Hscan;
        destruct (scan_by_email a b c d) as [[k|e] st']
    end; simpl in *; by rewrite delete_id.
Qed.

Lemma destroyUserSessions_inv email st :
  directory_inv (userSessions st) →
  directory_inv (userSessions (destroyUserSessions email st).2).
Proof.
  intros Hinv.
  assert (∀ k, directory_inv (delete k (userSessions st))) as Hdel.
  { intros k k' ids [_ Hk]%lookup_delete_Some. by eapply Hinv. }
  destruct email as [| |b|z|s|items|props|f];
    try (by destruct st); try (by destruct b); try (unfold destroyUserSessions;
      simpl; by repeat case_match).
  destruct (decide (s = "")) as [->|Hs]; [done|].
  rewrite destroyUserSessions_userSessions by done. apply Hdel.
Qed.

Lemma registerUserSession_inv email sid st :
  directory_inv (userSessions st) →
  directory_inv (userSessions (registerUserSession email sid st)).
Proof.
  intros Hinv.
  destruct (decide (email = "")) as [->|He]; [done|].
  destruct (decide (sid = "")) as [->|Hs].
  { unfold registerUserSession. by rewrite orb_true_r. }
  rewrite registerUserSession_lookup by done.
  intros k ids. rewrite lookup_insert. case_decide; [|apply Hinv].
  intros [= <-] Hempty.
  apply (not_elem_of_empty (C := gset string) sid). rewrite <- Hempty.
  apply elem_of_union_r, elem_of_singleton. done.
Qed.

Lemma unregisterUserSession_inv email sid st :
  directory_inv (userSessions st) →
  directory_inv (userSessions (unregisterUserSession email sid st)).
Proof.
  intros Hinv.
  destruct (decide (email = "")) as [->|He]; [done|].
  destruct (decide (sid = "")) as [->|Hs].
  { unfold unregisterUserSession. by rewrite orb_true_r. }
  rewrite unregisterUserSession_lookup by done.
  destruct (userSessions st !! toLowerCase email) as [ids0|] eqn:Hl; [|done].
  case_decide.
  - intros k ids [_ Hk]%lookup_delete_Some. by eapply Hinv.
  - intros k ids. rewrite lookup_insert. case_decide; [|apply Hinv].
    by intros [= <-].
Qed.

(** Every state the three operations reach from an empty directory
    satisfies the invariant. *)
Lemma directory_inv_reachable ops st :
  userSessions st = ∅ →
  directory_inv (userSessions (foldl (λ s o, apply_op o s) st ops)).
Proof.
  intros Hempty.
  assert (directory_inv (userSessions st)) as Hinv.
  { intros k ids. by rewrite Hempty, lookup_empty. }
  clear Hempty. revert st Hinv.
  induction ops as [|o ops IH]; intros st Hinv; [done|].
  simpl. apply IH. destruct o; simpl.
  - by apply registerUserSession_inv.
  - by apply unregisterUserSession_inv.
  - by apply destroyUserSessions_inv.
Qed.

(** C6. The directory invariant, that the set of session ids of an entry is
    never empty, is preserved by [registerUserSession],
    [unregisterUserSession] and [destroyUserSessions]; and on a directory
    with no entry for an identity, registering a session id for it and
    unregistering the same id leaves no entry for it. *)
Theorem directory_invariant_preserved st :
  directory_inv (userSessions st) →
  (∀ email sid, directory_inv (userSessions (registerUserSession email sid st)))
  ∧ (∀ email sid, directory_inv (userSessions (unregisterUserSession email sid st)))
  ∧ (∀ email, directory_inv (userSessions (destroyUserSessions email st).2))
  ∧ (∀ email sid,
       userSessions st !! toLowerCase email = None →
       userSessions
         (unregisterUserSession email sid (registerUserSession email sid st))
       !! toLowerCase email = None).
Proof.
  intros Hinv. split; [|split; [|split]].
  - intros email sid. by apply registerUserSession_inv.
  - intros email sid. by apply unregisterUserSession_inv.
  - intros email. by apply destroyUserSessions_inv.
  - intros email sid Hnone.
    destruct (decide (email = "")) as [->|He]; [done|].
    destruct (decide (sid = "")) as [->|Hs].
    { unfold unregisterUserSession, registerUserSession.
      by rewrite !orb_true_r. }
    rewrite unregisterUserSession_lookup by done.
    rewrite registerUserSession_lookup by done.
    rewrite lookup_insert_eq, Hnone. simpl.
    assert ((∅ ∪ {[sid]}) ∖ {[sid]} = (∅ : gset string)) as Hgone.
    { apply leibniz_equiv. intros x.
      rewrite elem_of_difference, elem_of_union, elem_of_empty. tauto. }
    rewrite decide_True by exact Hgone.
    by rewrite lookup_delete_eq.
Qed.

(** The theorem at the directory that knows one session of ann, for an
    identity it does not know. *)
Lemma directory_invariant_preserved_witness :
  directory_inv (userSessions Samples.st_out_of_sync)
  ∧ userSessions
      (unregisterUserSession "Bob@Example.com" "s3"
         (registerUserSession "Bob@Example.com" "s3" Samples.st_out_of_sync))
    !! toLowerCase "Bob@Example.com" = None.
Proof.
  assert (directory_inv (userSessions Samples.st_out_of_sync)) as Hinv.
  { intros k ids. simpl. intros [_ <-]%lookup_singleton_Some.
    apply non_empty_singleton_L. }
  split; [exact Hinv|].
  apply (proj2 (proj2 (proj2
           (directory_invariant_preserved Samples.st_out_of_sync Hinv)))).
  vm_compute. reflexivity.
Defined.

(** *** Bulk destruction by email *)

(** The email the scan compares is that of the first truthy one of the four
    fields, in this order. *)
Lemma userEmail_of_priority user :
  userEmail_of user
  = if truthy (opt_prop (opt_index0 (get_prop user "emails")) "value")
    then opt_prop (opt_index0 (get_prop user "emails")) "value"
    else if truthy (get_prop user "email") then get_prop user "email"
    else if truthy (opt_prop (get_prop user "_json") "email")
    then opt_prop (get_prop user "_json") "email"
    else get_prop user "preferred_username".
Proof. reflexivity. Qed.

Lemma email_hit_true ne data :
  email_hit ne data = true ↔
    ∃ user s,
      principal_of data = Some user
      ∧ userEmail_of user = VStr s ∧ s ≠ "" ∧ toLowerCase s = ne.
Proof.
  unfold email_hit. split.
  - destruct (principal_of data) as [user|]; [|done].
    destruct (userEmail_of user) as [| |b|z|s|items|props|f] eqn:He; try done.
    intros [Hs Heq]%andb_true_iff.
    apply truthy_VStr in Hs. apply String.eqb_eq in Heq. by exists user, s.
  - intros (user & s & -> & -> & Hs & Heq).
    apply andb_true_iff. split; [by apply truthy_VStr|by apply String.eqb_eq].
Qed.

Lemma elem_of_email_hits ne (l : list (string * session_data)) sid :
  sid ∈ email_hits ne l ↔ ∃ data, (sid, data) ∈ l ∧ email_hit ne data = true.
Proof.
  unfold email_hits. rewrite list_elem_of_fmap. split.
  - intros [[sid' data] [-> [Hhit Hin]%list_elem_of_filter]].
    exists data. split; [done|]. by apply Is_true_true.
  - intros [data [Hin Hhit]]. exists (sid, data). split; [done|].
    apply list_elem_of_filter. split; [|done]. by apply Is_true_true.
Qed.

Lemma NoDup_fst_functional (l : list (string * session_data)) k v v' :
  NoDup l.*1 → (k, v) ∈ l → (k, v') ∈ l → v = v'.
Proof.
  induction l as [|[k0 v0] l IH]; simpl.
  - by intros _ ?%elem_of_nil.
  - intros [Hk0 Hnd]%NoDup_cons [[= -> ->]|Hv]%elem_of_cons
      [[= <-]|Hv']%elem_of_cons; try done.
    + destruct Hk0. by apply (list_elem_of_fmap_2 fst _ (k0, v')).
    + destruct Hk0. by apply (list_elem_of_fmap_2 fst _ (k, v)).
    + by apply IH.
Qed.

(** C1, amended.  For every non-empty identity whose directory entry holds
    the set [ids] of session ids, [destroyUserSessions] leaves no entry for
    the identity; and, when every record of the store can be scanned, it
    returns the size of [ids] plus the number of records that are still in
    the store after the members of [ids] were destroyed and that the scan
    hits, which is exactly the size of [ids] when there is no such record. *)
Theorem destroyUserSessions_registered email st ids :
  email ≠ "" →
  userSessions st !! toLowerCase email = Some ids →
  let ne := toLowerCase email in
  let hits := email_hits ne (without (elements ids) (store st)) in
  userSessions (destroyUserSessions (VStr email) st).2 !! ne = None
  ∧ (Forall (λ e, scannable e.2 = true) (store st) →
     (destroyUserSessions (VStr email) st).1 = Resolved (size ids + length hits)
     ∧ (hits = [] → (destroyUserSessions (VStr email) st).1 = Resolved (size ids))).
Proof.
  intros He Hids ne hits. split.
  - rewrite destroyUserSessions_userSessions by done. apply lookup_delete_eq.
  - intros Hall.
    rewrite (destroyUserSessions_spec email st ids) by (by rewrite ?Hids).
    split; [done|]. fold ne. fold hits. intros ->. simpl. by rewrite Nat.add_0_r.
Qed.

(** The theorem at the directory that knows one session of ann. *)
Lemma destroyUserSessions_registered_witness :
  userSessions Samples.st_out_of_sync !! toLowerCase "Ann@Example.com"
    = Some {["s1"]}
  ∧ userSessions (destroyUserSessions (VStr "Ann@Example.com") Samples.st_out_of_sync).2
      !! toLowerCase "Ann@Example.com" = None
  ∧ (destroyUserSessions (VStr "Ann@Example.com") Samples.st_out_of_sync).1
    = Resolved (size ({["s1"]} : gset string) + 1).
Proof.
  assert (userSessions Samples.st_out_of_sync !! toLowerCase "Ann@Example.com"
          = Some {["s1"]}) as Hids by (vm_compute; reflexivity).
  split; [exact Hids|].
  destruct (destroyUserSessions_registered "Ann@Example.com"
              Samples.st_out_of_sync {["s1"]} ltac:(discriminate) Hids)
    as [Hgone Hcount].
  split; [exact Hgone|].
  destruct Hcount as [Hcount _]; [repeat constructor|].
  rewrite Hcount. vm_compute. reflexivity.
Defined.

(** C1, as stated, fails: the entry of ann holds one session id, and the
    call returns 2, because the scan finds a second session of ann in the
    store. *)
Lemma registered_count_exceeds_members :
  userSessions Samples.st_out_of_sync !! "ann@example.com" = Some {["s1"]}
  ∧ size ({["s1"]} : gset string) = 1
  ∧ (destroyUserSessions (VStr "ann@example.com") Samples.st_out_of_sync).1
    = Resolved 2.
Proof. vm_compute. repeat split; reflexivity. Qed.

(** C2, amended.  For every non-empty identity that has no directory entry,
    [destroyUserSessions] leaves the directory as it is.  When the email
    resolved for every stored principal is a string or falsy, it enumerates
    the store once, destroys the records the scan hits and returns their
    number; when, then, the scan hits no record it returns 0 and its only
    call on the store is the enumeration. *)
Theorem destroyUserSessions_unregistered email st :
  email ≠ "" →
  userSessions st !! toLowerCase email = None →
  let hits := email_hits (toLowerCase email) (store st) in
  userSessions (destroyUserSessions (VStr email) st).2 = userSessions st
  ∧ (Forall (λ e, scannable e.2 = true) (store st) →
     destroyUserSessions (VStr email) st
     = (Resolved (length hits),
        mkState (userSessions st) (without hits (store st))
          (calls st ++ CallAll :: map CallDestroy hits))
     ∧ (hits = [] →
        destroyUserSessions (VStr email) st
        = (Resolved 0,
           mkState (userSessions st) (store st) (calls st ++ [CallAll])))).
Proof.
  intros He Hnone hits. split.
  { rewrite destroyUserSessions_userSessions by done. by apply delete_id. }
  intros Hall.
  assert (destroyUserSessions (VStr email) st
          = (Resolved (length hits),
             mkState (userSessions st) (without hits (store st))
               (calls st ++ CallAll :: map CallDestroy hits))) as Hrun.
  { rewrite (destroyUserSessions_spec email st ∅) by (by rewrite ?Hnone).
    rewrite elements_empty, !without_nil, size_empty, delete_id by done.
    done. }
  split; [exact Hrun|]. rewrite Hrun. intros ->. by rewrite without_nil.
Qed.

(** The theorem for bob, who has no entry and no session that the scan
    hits. *)
Lemma destroyUserSessions_unregistered_witness :
  userSessions Samples.st_unregistered !! toLowerCase "Bob@example.com" = None
  ∧ Forall (λ e, scannable e.2 = true) (store Samples.st_unregistered)
  ∧ destroyUserSessions (VStr "Bob@example.com") Samples.st_unregistered
    = (Resolved 0,
       mkState (userSessions Samples.st_unregistered)
         (store Samples.st_unregistered)
         (calls Samples.st_unregistered ++ [CallAll])).
Proof.
  assert (userSessions Samples.st_unregistered !! toLowerCase "Bob@example.com"
          = None) as Hnone by (vm_compute; reflexivity).
  assert (Forall (λ e, scannable e.2 = true) (store Samples.st_unregistered))
    as Hall by repeat constructor.
  split_and!; [exact Hnone|exact Hall|].
  refine (proj2 (proj2 (destroyUserSessions_unregistered "Bob@example.com"
                          Samples.st_unregistered _ Hnone) Hall) _).
  - discriminate.
  - vm_compute. reflexivity.
Defined.

(** C2, as stated, fails: ann has no directory entry, and the call
    enumerates the store, destroys a session and returns 1. *)
Lemma unknown_identity_reaches_store :
  userSessions Samples.st_unregistered !! toLowerCase "ann@example.com" = None
  ∧ destroyUserSessions (VStr "ann@example.com") Samples.st_unregistered
    = (Resolved 1, mkState ∅ [] [CallAll; CallDestroy "s7"]).
Proof. vm_compute. split; reflexivity. Qed.

(** C3, amended.  For every email-format revocation with a non-empty email,
    on a store whose ids are distinct and whose records can all be scanned,
    [destroyUserSessions] resolves, and a record of the store is destroyed
    exactly when its id is a member of the directory entry of the identity
    or the scan hits it, that is, when the first truthy one of
    [emails[0].value], [email], [_json.email] and [preferred_username] of its
    principal is a string equal to the identity up to case. *)
Theorem fallback_scan_hits_resolved_email email st :
  email ≠ "" →
  NoDup (store st).*1 →
  Forall (λ e, scannable e.2 = true) (store st) →
  let ne := toLowerCase email in
  let ids := default ∅ (userSessions st !! ne) in
  ∃ n st',
    destroyUserSessions (VStr email) st = (Resolved n, st')
    ∧ ∀ sid data,
        (sid, data) ∈ store st →
        ((sid, data) ∉ store st'
         ↔ sid ∈ ids
           ∨ ∃ user s,
               principal_of data = Some user
               ∧ userEmail_of user = VStr s ∧ s ≠ "" ∧ toLowerCase s = ne).
Proof.
  intros He Hnd Hall ne ids.
  rewrite (destroyUserSessions_spec email st ids) by done.
  fold ne. eexists _, _. split; [reflexivity|].
  cbn [store]. intros sid data Hin. rewrite <- email_hit_true.
  rewrite !elem_of_without. cbn [fst].
  rewrite elem_of_email_hits, elem_of_elements. split.
  - intros Hgone.
    destruct (decide (sid ∈ ids)) as [|Hsid]; [by left|]. right.
    destruct (email_hit ne data) eqn:Hhit; [done|].
    destruct Hgone. repeat split; [|done..].
    intros [data' [[_ Hin']%elem_of_without Hhit']].
    rewrite (NoDup_fst_functional _ _ _ _ Hnd Hin Hin') in Hhit. congruence.
  - intros [Hsid|Hhit] [Hnot [Hsid' _]]; [done|].
    apply Hnot. exists data. split; [|done].
    apply elem_of_without. split; [|done].
    cbn [fst]. by rewrite elem_of_elements.
Qed.

(** The theorem at the store of three sessions, for ann. *)
Lemma fallback_scan_hits_resolved_email_witness :
  ∃ n st',
    destroyUserSessions (VStr "Ann@Example.com") Samples.st_out_of_sync
    = (Resolved n, st')
    ∧ ∀ sid data,
        (sid, data) ∈ store Samples.st_out_of_sync →
        ((sid, data) ∉ store st'
         ↔ sid ∈ default ∅ (userSessions Samples.st_out_of_sync
                              !! toLowerCase "Ann@Example.com")
           ∨ ∃ user s,
               principal_of data = Some user
               ∧ userEmail_of user = VStr s ∧ s ≠ ""
               ∧ toLowerCase s = toLowerCase "Ann@Example.com").
Proof.
  refine (fallback_scan_hits_resolved_email "Ann@Example.com"
            Samples.st_out_of_sync _ _ _).
  - discriminate.
  - apply (bool_decide_unpack _). vm_compute. exact I.
  - repeat constructor.
Defined.

(** C3, as stated, fails: the principal of session [s5] carries the target
    email in its primary email field, but its first listed email is another
    address, and the revocation destroys nothing. *)
Lemma primary_email_shadowed :
  principal_of (Samples.session_of Samples.two_emails) = Some Samples.two_emails
  ∧ get_prop Samples.two_emails "email" = VStr "ann@example.com"
  ∧ destroyUserSessions (VStr "ann@example.com") Samples.st_two_emails
    = (Resolved 0, mkState ∅ (store Samples.st_two_emails) [CallAll]).
Proof. vm_compute. repeat split; reflexivity. Qed.

(** *** Sample runs *)

Example toLowerCase_email : toLowerCase "Foo@Bar.COM" = "foo@bar.com".
Proof. reflexivity. Qed.

(** Identity matching is case-insensitive: a session registered for
    [Foo@Bar.com] is destroyed by a revocation of [foo@bar.com]. *)
Example register_then_destroy_other_case :
  (destroyUserSessions (VStr "foo@bar.com")
     (registerUserSession "Foo@Bar.com" "s1" (mkState ∅ [] []))).1
  = Resolved 1
  ∧ userSessions
      (destroyUserSessions (VStr "foo@bar.com")
         (registerUserSession "Foo@Bar.com" "s1" (mkState ∅ [] []))).2
    = ∅.
Proof. vm_compute. split; reflexivity. Qed.

(** Registration is idempotent. *)
Example register_twice :
  userSessions (registerUserSession "ann@example.com" "s1" Samples.st_out_of_sync)
  = userSessions Samples.st_out_of_sync.
Proof. vm_compute. reflexivity. Qed.

(** The order of the calls on the store: the members of the entry, the
    enumeration, the records the scan hits. *)
Example destroy_out_of_sync_calls :
  calls (destroyUserSessions (VStr "ann@example.com") Samples.st_out_of_sync).2
  = [CallDestroy "s1"; CallAll; CallDestroy "s2"]
  ∧ (store (destroyUserSessions (VStr "ann@example.com") Samples.st_out_of_sync).2).*1
    = ["s3"].
Proof. vm_compute. split; reflexivity. Qed.

(** The email resolved for a principal is that of the first truthy field. *)
Example userEmail_of_two_emails :
  userEmail_of Samples.two_emails = VStr "old@example.com".
Proof. reflexivity. Qed.

(** A record whose resolved email is a number stops the scan. *)
Example scan_stops_on_number :
  (destroyUserSessions (VStr "ann@example.com")
     (mkState ∅ [("s1", Samples.session_of (VObj [("email", VNum 7)]))] [])).1
  = Unsettled (TypeError "toLowerCase is not a function").
Proof. vm_compute. reflexivity. Qed.

End SessionStoreFacts.

(** ** The Universal Logout endpoint *)

Module UniversalLogoutFacts.
Import SessionStore UniversalLogout SessionStoreFacts.

(** *** Resolution by subject *)

Lemma scan_by_subject_cons subject sid data rest n st :
  scan_by_subject subject ((sid, data) :: rest) n st
  = if subject_hit subject data
    then scan_by_subject subject rest (S n) (store_destroy sid st)
    else scan_by_subject subject rest n st.
Proof.
  unfold subject_hit, principal_of. simpl.
  by destruct (truthy (lookup_prop "passport" data)
               && truthy (get_prop (lookup_prop "passport" data) "user")).
Qed.

Lemma subject_hits_cons subject sid data rest :
  subject_hits subject ((sid, data) :: rest)
  = if subject_hit subject data
    then sid :: subject_hits subject rest else subject_hits subject rest.
Proof.
  unfold subject_hits. rewrite filter_cons. simpl.
  destruct (subject_hit subject data); by case_decide.
Qed.

Lemma scan_by_subject_spec subject entries n st :
  scan_by_subject subject entries n st
  = (n + length (subject_hits subject entries),
     mkState (userSessions st) (without (subject_hits subject entries) (store st))
       (calls st ++ map CallDestroy (subject_hits subject entries))).
Proof.
  revert n st. induction entries as [|[sid data] rest IH]; intros n st.
  - simpl. rewrite without_nil, Nat.add_0_r, app_nil_r. by destruct st.
  - rewrite scan_by_subject_cons, subject_hits_cons.
    destruct (subject_hit subject data); rewrite IH; [|done].
    simpl. rewrite without_cons, <- app_assoc. simpl. do 2 f_equal. lia.
Qed.

Lemma destroyUserSessionsBySubject_run subject st :
  destroyUserSessionsBySubject subject st
  = (Resolved (length (subject_hits subject (store st))),
     mkState (userSessions st)
       (without (subject_hits subject (store st)) (store st))
       (calls st ++ CallAll :: map CallDestroy (subject_hits subject (store st)))).
Proof.
  unfold destroyUserSessionsBySubject.
  cbn [store_all]. rewrite scan_by_subject_spec.
  cbn [userSessions store calls]. by rewrite <- app_assoc.
Qed.

(** C9. [destroyUserSessionsBySubject] enumerates the store once, destroys
    the records whose principal has the subject as its [id] or as the [sub]
    of its [_json], and no other, and returns their number; the directory is
    the same afterwards, and the run does not depend on it: on any other
    directory the call returns the same number and leaves the same store and
    the same calls. *)
Theorem destroyUserSessionsBySubject_fallback_only subject st :
  let hits := subject_hits subject (store st) in
  destroyUserSessionsBySubject subject st
  = (Resolved (length hits),
     mkState (userSessions st) (without hits (store st))
       (calls st ++ CallAll :: map CallDestroy hits))
  ∧ ∀ us,
      destroyUserSessionsBySubject subject (set_userSessions us st)
      = ((destroyUserSessionsBySubject subject st).1,
         set_userSessions us (destroyUserSessionsBySubject subject st).2).
Proof.
  intros hits.
  assert (∀ st0,
            destroyUserSessionsBySubject subject st0
            = (Resolved (length (subject_hits subject (store st0))),
               mkState (userSessions st0)
                 (without (subject_hits subject (store st0)) (store st0))
                 (calls st0 ++ CallAll
                    :: map CallDestroy (subject_hits subject (store st0)))))
    as Hrun by (intros st0; apply destroyUserSessionsBySubject_run).
  split; [apply Hrun|]. intros us. by rewrite !Hrun.
Qed.

(** *** Parsing the subject identifier *)

Lemma strict_eq_VStr v s : strict_eq v (VStr s) = true ↔ v = VStr s.
Proof.
  destruct v; simpl; try (split; [done|discriminate]).
  rewrite String.eqb_eq. split; congruence.
Qed.

Lemma get_prop_VStr_receiver o k s :
  get_prop o k = VStr s → ∃ props, o = VObj props.
Proof.
  destruct o; simpl; try discriminate; [|by eauto].
  by destruct (String.eqb k "sub").
Qed.

Section Parsing.

Variable Number_toString : Z → string.

Lemma extractUserIdentifier_Some subId uid :
  extractUserIdentifier Number_toString subId = Ok (Some uid) ↔
    (get_prop subId "format" = VStr "email"
     ∧ truthy (get_prop subId "email") = true
     ∧ uid = EmailIdentifier (get_prop subId "email") (get_prop subId "email"))
    ∨ (get_prop subId "format" = VStr "iss_sub"
       ∧ truthy (get_prop subId "iss") = true
       ∧ truthy (get_prop subId "sub") = true
       ∧ ∃ i s,
           js_toString Number_toString (get_prop subId "iss") = Ok i
           ∧ js_toString Number_toString (get_prop subId "sub") = Ok s
           ∧ uid = IssSubIdentifier (i +:+ "|" +:+ s)
                     (get_prop subId "iss") (get_prop subId "sub")).
Proof.
  unfold extractUserIdentifier. split.
  - destruct (negb (truthy subId) || negb (typeof_object subId)); [done|].
    destruct (strict_eq _ (VStr "email")) eqn:He.
    { apply strict_eq_VStr in He.
      destruct (truthy (get_prop subId "email")) eqn:Ht; [|done].
      intros [= <-]. by left. }
    destruct (strict_eq _ (VStr "iss_sub")) eqn:Hi; [|done].
    apply strict_eq_VStr in Hi.
    destruct (truthy (get_prop subId "iss")) eqn:Ht1; [|done].
    destruct (truthy (get_prop subId "sub")) eqn:Ht2; [|done].
    cbn [negb orb].
    destruct (js_toString _ (get_prop subId "iss")) as [i|e]; [|done].
    destruct (js_toString _ (get_prop subId "sub")) as [s0|e]; [|done].
    intros [= <-]. right. split_and!; [done..|]. by exists i, s0.
  - intros [(Hf & Ht & ->)|(Hf & Ht1 & Ht2 & i & s0 & Hi & Hs & ->)].
    + destruct (get_prop_VStr_receiver _ _ _ Hf) as [props ->].
      rewrite Hf, Ht. done.
    + destruct (get_prop_VStr_receiver _ _ _ Hf) as [props ->].
      rewrite Hf, Ht1, Ht2. cbn [negb orb strict_eq String.eqb].
      rewrite Hi. cbn [mbind result_bind]. rewrite Hs. done.
Qed.

(** The parsing raises only while it builds the composite key. *)
Lemma extractUserIdentifier_Throw subId err :
  extractUserIdentifier Number_toString subId = Throw err ↔
    get_prop subId "format" = VStr "iss_sub"
    ∧ truthy (get_prop subId "iss") = true
    ∧ truthy (get_prop subId "sub") = true
    ∧ (js_toString Number_toString (get_prop subId "iss") = Throw err
       ∨ ∃ i, js_toString Number_toString (get_prop subId "iss") = Ok i
              ∧ js_toString Number_toString (get_prop subId "sub") = Throw err).
Proof.
  unfold extractUserIdentifier. split.
  - destruct (negb (truthy subId) || negb (typeof_object subId)); [done|].
    destruct (strict_eq _ (VStr "email")) eqn:He.
    { by destruct (truthy (get_prop subId "email")). }
    destruct (strict_eq _ (VStr "iss_sub")) eqn:Hi; [|done].
    apply strict_eq_VStr in Hi.
    destruct (truthy (get_prop subId "iss")) eqn:Ht1; [|done].
    destruct (truthy (get_prop subId "sub")) eqn:Ht2; [|done].
    cbn [negb orb].
    destruct (js_toString _ (get_prop subId "iss")) as [i|e] eqn:Hiss.
    + destruct (js_toString _ (get_prop subId "sub")) as [s0|e] eqn:Hsub;
        [done|].
      intros [= <-]. split_and!; [done..|]. right. by exists i.
    + intros [= <-]. split_and!; [done..|]. by left.
  - intros (Hf & Ht1 & Ht2 & Hcause).
    destruct (get_prop_VStr_receiver _ _ _ Hf) as [props ->].
    rewrite Hf, Ht1, Ht2. cbn [negb orb strict_eq String.eqb].
    destruct Hcause as [->|(i & -> & Hs)]; [done|].
    cbn [mbind result_bind]. by rewrite Hs.
Qed.

Lemma extractUserIdentifier_receiver subId :
  extractUserIdentifier Number_toString subId ≠ Ok None →
  ∃ props, subId = VObj props.
Proof.
  intros Hx. destruct (extractUserIdentifier Number_toString subId)
    as [[uid|]|err] eqn:Hrun; [| done |].
  - apply extractUserIdentifier_Some in Hrun as [(Hf & _)|(Hf & _)];
      by apply get_prop_VStr_receiver in Hf.
  - apply extractUserIdentifier_Throw in Hrun as (Hf & _).
    by apply get_prop_VStr_receiver in Hf.
Qed.

Lemma extractUserIdentifier_body body :
  extractUserIdentifier Number_toString (get_prop body "sub_id") ≠ Ok None →
  truthy body = true ∧ truthy (get_prop body "sub_id") = true.
Proof.
  intros [props Hsub]%extractUserIdentifier_receiver.
  split; [|by rewrite Hsub].
  destruct body; simpl in Hsub; try discriminate; done.
Qed.

(** The route when the parsing accepts no identifier. *)
Lemma post_global_token_revocation_None body st :
  let sub_id := get_prop body "sub_id" in
  truthy body = true →
  truthy sub_id = true →
  extractUserIdentifier Number_toString sub_id = Ok None →
  post_global_token_revocation Number_toString body st
  = match js_toString Number_toString (get_prop sub_id "format") with
    | Ok format =>
        (Responded
           (Json 400 "invalid_request"
              ("Unrecognized subject identifier format: " +:+ format
               +:+ ". Supported formats: email, iss_sub")), st)
    | Throw err => (Responded (error_handler err), st)
    end.
Proof.
  intros sub_id Hbody Hsub Hnone.
  unfold post_global_token_revocation, revocation_handler. fold sub_id.
  rewrite Hbody, Hsub, Hnone. cbn [negb].
  by destruct (js_toString _ _).
Qed.


End Parsing.

(** C7. The claim fails on a subject identifier whose [format] is an
    object with a member [toString], the body
    [{"sub_id": {"format": {"toString": 1}}}]: the parsing accepts no
    identifier, the template literal of the 400 reply raises a [TypeError]
    while it converts the format to a string, outside the [try], and the
    error handler of the router answers 500 [server_error] where the claim
    has 400 [invalid_request] with a description that names the format. *)
Theorem unprintable_format_server_error Number_toString st :
  extractUserIdentifier Number_toString
    (get_prop Samples.body_unprintable_format "sub_id") = Ok None
  ∧ js_toString Number_toString
      (get_prop (get_prop Samples.body_unprintable_format "sub_id") "format")
    = Throw (TypeError "Cannot convert object to primitive value")
  ∧ post_global_token_revocation Number_toString
      Samples.body_unprintable_format st
    = (Responded (Json 500 "server_error" "An unexpected error occurred"), st).
Proof. done. Qed.

(** *** The response to a revocation that matches nothing *)







(** *** Expired tokens *)

Lemma split_space_nonempty s a b rest : split_space s = a :: b :: rest → s ≠ "".
Proof. by intros H ->. Qed.

(** Whatever the validation throws, the middleware replies 401
    [unauthorized]. *)
Lemma universalLogoutAuth_bearer jwt_decode jws_verify jwks now
    orgUrl revocationEndpoint authHeader scheme token rest :
  split_space authHeader = scheme :: token :: rest →
  toLowerCase scheme = "bearer" →
  token ≠ "" →
  universalLogoutAuth jwt_decode jws_verify jwks now orgUrl revocationEndpoint
    (Some authHeader)
  = match validateLogoutToken jwt_decode jws_verify jwks now token
            revocationEndpoint (strip_trailing_slash orgUrl) with
    | Ok payload => Next payload
    | Throw err =>
        if String.eqb (name err) "TokenExpiredError" then
          Reply (Json 401 "unauthorized" "Token has expired")
        else if String.eqb (name err) "JsonWebTokenError" then
          Reply (Json 401 "unauthorized" ("Invalid token: " +:+ message err))
        else Reply (Json 401 "unauthorized" "Token validation failed")
    end.
Proof.
  intros Hsplit Hscheme Htoken. unfold universalLogoutAuth.
  pose proof (split_space_nonempty _ _ _ _ Hsplit) as Hne.
  destruct authHeader as [|c s]; [done|].
  rewrite Hsplit. cbn [lookup list_lookup default from_option id].
  rewrite Hscheme. apply truthy_VStr in Htoken as ->. done.
Qed.





(** *** Sample runs of the endpoint *)

Example no_authorization_header :
  universalLogoutAuth Samples.sample_decode Samples.sample_jws_verify
    Samples.sample_jwks 2000 "https://org.okta.com/"
    "https://bank.example/api/global-token-revocation" None
  = Reply (Json 401 "unauthorized" "Missing authorization header").
Proof. reflexivity. Qed.

Example basic_scheme :
  universalLogoutAuth Samples.sample_decode Samples.sample_jws_verify
    Samples.sample_jwks 2000 "https://org.okta.com/"
    "https://bank.example/api/global-token-revocation" (Some "Basic abc")
  = Reply (Json 401 "unauthorized"
             "Invalid authorization scheme. Expected: Bearer {token}").
Proof. reflexivity. Qed.

Example valid_token_passes :
  universalLogoutAuth Samples.sample_decode Samples.sample_jws_verify
    Samples.sample_jwks 2000 "https://org.okta.com/"
    "https://bank.example/api/global-token-revocation"
    (Some "Bearer valid.jwt.sig")
  = Next (Samples.okta_claims 5000).
Proof. reflexivity. Qed.

Example other_issuer :
  universalLogoutAuth Samples.sample_decode Samples.sample_jws_verify
    Samples.sample_jwks 2000 "https://other.okta.com"
    "https://bank.example/api/global-token-revocation"
    (Some "Bearer valid.jwt.sig")
  = Reply (Json 401 "unauthorized"
             "Invalid token: jwt issuer invalid. expected: https://other.okta.com").
Proof. reflexivity. Qed.

Example empty_body_object :
  (post_global_token_revocation Samples.decimal (VObj [])
     Samples.st_out_of_sync).1
  = Responded (Json 400 "invalid_request" "sub_id is required").
Proof. reflexivity. Qed.

Example unknown_format :
  (post_global_token_revocation Samples.decimal
     (VObj [("sub_id", VObj [("format", VStr "unknown")])])
     Samples.st_out_of_sync).1
  = Responded
      (Json 400 "invalid_request"
         "Unrecognized subject identifier format: unknown. Supported formats: email, iss_sub").
Proof. reflexivity. Qed.

(** An email that is not a string passes the parsing and fails in
    [destroyUserSessions]. *)
Example email_is_a_number :
  (post_global_token_revocation Samples.decimal
     (VObj [("sub_id", VObj [("format", VStr "email"); ("email", VNum 5)])])
     Samples.st_out_of_sync).1
  = Responded (Json 422 "unprocessable_entity" "Unable to revoke user sessions").
Proof. reflexivity. Qed.

(** A revocation by subject destroys both sessions of the principal and
    leaves the directory entry of ann behind. *)
Example revoke_by_subject :
  post_global_token_revocation Samples.decimal
    (Samples.body_iss_sub "https://org.okta.com" "00u1") Samples.st_out_of_sync
  = (Responded (SendStatus 204),
     mkState (userSessions Samples.st_out_of_sync)
       [("s3", Samples.session_of (Samples.profile "00u2" "bob@example.com"))]
       [CallAll; CallDestroy "s1"; CallDestroy "s2"]).
Proof. vm_compute. reflexivity. Qed.

End UniversalLogoutFacts.

(** ** The step-up gate and the wire-transfer routes *)

Module WireTransferFacts.
Import WireTransfer.

(** The marker of a session is fresh at [now]. *)
Lemma gate_condition now s :
  truthy_flag (mfaVerified s) && truthy_time (mfaVerifiedAt s)
  && (now - default 0 (mfaVerifiedAt s) <? MFA_TIMEOUT)%Z = true
  ↔ mfaVerified s = Some true
    ∧ ∃ t, mfaVerifiedAt s = Some t ∧ t ≠ 0%Z ∧ (now - t < 5 * 60 * 1000)%Z.
Proof.
  unfold truthy_flag, truthy_time, MFA_TIMEOUT.
  rewrite !andb_true_iff, Z.ltb_lt. split.
  - intros [[Hflag Htime] Hlt].
    destruct (mfaVerified s) as [[]|]; try done.
    destruct (mfaVerifiedAt s) as [t|]; [|done].
    split; [done|]. exists t. repeat split; [|done].
    intros ->. done.
  - intros [-> (t & -> & Ht & Hlt)]. repeat split; [|done].
    apply negb_true_iff, Z.eqb_neq. done.
Qed.

Lemma ensureMfaVerified_cases now req :
  ensureMfaVerified now req
  = if truthy_flag (mfaVerified (req_session req))
       && truthy_time (mfaVerifiedAt (req_session req))
       && (now - default 0 (mfaVerifiedAt (req_session req)) <? MFA_TIMEOUT)%Z
    then Next req
    else Done (Redirect "/stepup-mfa") (set_mfaReturnUrl "/wire-transfer" req).
Proof. done. Qed.



(** *** POST is not gated *)

Lemma post_handler_session parseFloat toFixed2 refNumber timestamp s req :
  post_handler parseFloat toFixed2 refNumber timestamp (set_session s req)
  = post_handler parseFloat toFixed2 refNumber timestamp req.
Proof. done. Qed.

(** C10. The chain of POST holds [ensureLoggedIn] only: an authenticated
    request reaches the handler, the session is not written to, and the
    response is the same whatever the session holds.  So a request whose
    marker is stale or absent, which GET redirects to ["/stepup-mfa"], gets
    the confirmation of the transfer from POST when its form passes the
    validation. *)
Theorem post_wire_transfer_not_gated parseFloat toFixed2 refNumber timestamp
    now req :
  isAuthenticated req = true →
  router_post parseFloat toFixed2 refNumber timestamp req
  = (post_handler parseFloat toFixed2 refNumber timestamp req, req)
  ∧ (∀ s,
       (router_post parseFloat toFixed2 refNumber timestamp (set_session s req)).1
       = (router_post parseFloat toFixed2 refNumber timestamp req).1)
  ∧ (ensureMfaVerified now req ≠ Next req →
     (router_get now req).1 = Redirect "/stepup-mfa"
     ∧ (validate parseFloat toFixed2 (body req) = [] →
        ∃ details,
          (router_post parseFloat toFixed2 refNumber timestamp req).1
          = RenderConfirm true details)).
Proof.
  intros Hauth.
  assert (∀ r, isAuthenticated r = true →
               router_post parseFloat toFixed2 refNumber timestamp r
               = (post_handler parseFloat toFixed2 refNumber timestamp r, r))
    as Hpost.
  { intros r Hr. unfold router_post. simpl. unfold ensureLoggedIn. by rewrite Hr. }
  split; [by apply Hpost|]. split.
  - intros s. rewrite !Hpost by done. simpl. apply post_handler_session.
  - intros Hstale. split.
    + unfold router_get. simpl. unfold ensureLoggedIn. rewrite Hauth.
      rewrite ensureMfaVerified_cases in *. by destruct (_ && _).
    + intros Hvalid. rewrite Hpost by done. simpl.
      unfold post_handler. rewrite Hvalid, Hauth. simpl. eauto.
Qed.

(** The theorem for a marker that is 301 seconds old and a form that
    passes the validation. *)
Lemma post_wire_transfer_not_gated_witness :
  (router_get 1000301000 (Samples.request_with (Samples.marked_at 1000000000))).1
  = Redirect "/stepup-mfa"
  ∧ ∃ details,
      (router_post Samples.sample_parseFloat Samples.sample_toFixed2
         "WT-LX2K4F-9QZ1" "Monday, November 2, 2026 at 9:30 AM"
         (Samples.request_with (Samples.marked_at 1000000000))).1
      = RenderConfirm true details.
Proof.
  destruct (post_wire_transfer_not_gated Samples.sample_parseFloat
              Samples.sample_toFixed2 "WT-LX2K4F-9QZ1"
              "Monday, November 2, 2026 at 9:30 AM" 1000301000
              (Samples.request_with (Samples.marked_at 1000000000)) eq_refl)
    as (_ & _ & Hgated).
  destruct Hgated as [Hget Hpost]; [vm_compute; discriminate|].
  split; [exact Hget|]. apply Hpost. vm_compute. reflexivity.
Defined.

(** *** Sample runs of the router *)

Example get_with_fresh_marker :
  (router_get 1000299000 (Samples.request_with (Samples.marked_at 1000000000))).1
  = get_handler (Samples.request_with (Samples.marked_at 1000000000)).
Proof. reflexivity. Qed.

Example get_without_marker :
  router_get 1000299000 (Samples.request_with (mkSession None None None))
  = (Redirect "/stepup-mfa",
     Samples.request_with (mkSession None None (Some "/wire-transfer"))).
Proof. reflexivity. Qed.

Example post_rejects_bad_form :
  (router_post Samples.sample_parseFloat Samples.sample_toFixed2 "R" "T"
     (mkRequest true (mkSession None None None) None
        (mkForm (Some "x") None (Some " ") (Some "12345678") (Some "1")
           (Some "abc") None))).1
  = RenderForm true SOURCE_ACCOUNTS
      (Some "Please select a valid source account. Recipient name is required. Recipient bank name is required. Routing number must be exactly 9 digits. Please enter a valid amount greater than $0.00.")
      (Some (mkForm (Some "x") None (Some " ") (Some "12345678") (Some "1")
               (Some "abc") None)).
Proof. vm_compute. reflexivity. Qed.

End WireTransferFacts.

(** ** More on the session directory *)

Module DirectoryFacts.
Import SessionStore SessionStoreFacts.

Lemma state_eq (a b : state) :
  userSessions a = userSessions b → store a = store b → calls a = calls b → a = b.
Proof. destruct a, b. simpl. by intros -> -> ->. Qed.

Lemma lower_ascii_idemp c : lower_ascii (lower_ascii c) = lower_ascii c.
Proof. by destruct c as [[] [] [] [] [] [] [] []]. Qed.

Lemma toLowerCase_idemp s : toLowerCase (toLowerCase s) = toLowerCase s.
Proof. induction s as [|c s IH]; [done|]. simpl. by rewrite lower_ascii_idemp, IH. Qed.

Lemma toLowerCase_empty s : toLowerCase s = "" ↔ s = "".
Proof. by destruct s. Qed.

Lemma registerUserSession_frame email sid st :
  store (registerUserSession email sid st) = store st
  ∧ calls (registerUserSession email sid st) = calls st.
Proof. unfold registerUserSession. by destruct (_ || _). Qed.

Lemma unregisterUserSession_frame email sid st :
  store (unregisterUserSession email sid st) = store st
  ∧ calls (unregisterUserSession email sid st) = calls st.
Proof.
  unfold unregisterUserSession. destruct (_ || _); [done|]. by destruct (has _ _).
Qed.

(** The state after a registration with non-empty arguments. *)
Lemma registerUserSession_state email sid st :
  email ≠ "" → sid ≠ "" →
  registerUserSession email sid st
  = set_userSessions
      (<[toLowerCase email :=
           default ∅ (userSessions st !! toLowerCase email) ∪ {[sid]}]>
         (userSessions st)) st.
Proof.
  intros He Hs. apply state_eq; simpl.
  - by apply registerUserSession_lookup.
  - apply registerUserSession_frame.
  - apply registerUserSession_frame.
Qed.

Lemma registerUserSession_empty_sid email st : registerUserSession email "" st = st.
Proof. unfold registerUserSession. by rewrite orb_true_r. Qed.

Lemma unregisterUserSession_empty_sid email st : unregisterUserSession email "" st = st.
Proof. unfold unregisterUserSession. by rewrite orb_true_r. Qed.

Lemma gset_union_idemp_r (X : gset string) x : X ∪ {[x]} ∪ {[x]} = X ∪ {[x]}.
Proof.
  apply leibniz_equiv. intros y. rewrite !elem_of_union. tauto.
Qed.

Lemma gset_union_swap (X : gset string) x y : X ∪ {[x]} ∪ {[y]} = X ∪ {[y]} ∪ {[x]}.
Proof.
  apply leibniz_equiv. intros z. rewrite !elem_of_union. tauto.
Qed.

Lemma gset_add_remove (X : gset string) x : x ∉ X → (X ∪ {[x]}) ∖ {[x]} = X.
Proof.
  intros Hx. apply leibniz_equiv. intros y.
  rewrite elem_of_difference, elem_of_union, elem_of_singleton.
  split; [tauto|]. intros Hy. split; [by left|]. by intros ->.
Qed.

Lemma gset_remove_absent (X : gset string) x : x ∉ X → X ∖ {[x]} = X.
Proof.
  intros Hx. apply leibniz_equiv. intros y.
  rewrite elem_of_difference, elem_of_singleton.
  split; [tauto|]. intros Hy. split; [done|]. by intros ->.
Qed.

(** X1. Registration is idempotent and does not depend on the case of the
    email: registering a session id again, under any spelling of the email
    with the same lowercase form, changes nothing. *)
Theorem registerUserSession_idempotent email email' sid st :
  toLowerCase email = toLowerCase email' →
  registerUserSession email' sid (registerUserSession email sid st)
  = registerUserSession email sid st.
Proof.
  intros Hlow.
  destruct (decide (sid = "")) as [->|Hs].
  { by rewrite !registerUserSession_empty_sid. }
  destruct (decide (email = "")) as [->|He].
  { symmetry in Hlow. apply toLowerCase_empty in Hlow as ->. done. }
  assert (email' ≠ "") as He'.
  { intros ->. apply He, toLowerCase_empty. exact Hlow. }
  rewrite (registerUserSession_state email' sid) by done.
  rewrite (registerUserSession_state email sid st) by done.
  rewrite <- Hlow. apply state_eq; simpl; [|done..].
  rewrite lookup_insert_eq. simpl.
  by rewrite insert_insert_eq, gset_union_idemp_r.
Qed.

Lemma registerUserSession_idempotent_witness :
  registerUserSession "ANN@example.com" "s1"
    (registerUserSession "Ann@Example.com" "s1" Samples.st_unregistered)
  = registerUserSession "Ann@Example.com" "s1" Samples.st_unregistered.
Proof.
  apply (registerUserSession_idempotent "Ann@Example.com" "ANN@example.com").
  reflexivity.
Defined.

(** X2. Registrations commute: two registrations, for the same identity or
    for different ones, leave the same state in either order, so neither
    update is lost. *)
Theorem registerUserSession_commute email1 sid1 email2 sid2 st :
  registerUserSession email1 sid1 (registerUserSession email2 sid2 st)
  = registerUserSession email2 sid2 (registerUserSession email1 sid1 st).
Proof.
  destruct (decide (sid1 = "")) as [->|Hs1];
    [by rewrite !registerUserSession_empty_sid|].
  destruct (decide (sid2 = "")) as [->|Hs2];
    [by rewrite !registerUserSession_empty_sid|].
  destruct (decide (email1 = "")) as [->|He1]; [done|].
  destruct (decide (email2 = "")) as [->|He2]; [done|].
  rewrite !registerUserSession_state by done.
  apply state_eq; simpl; [|done..].
  destruct (decide (toLowerCase email1 = toLowerCase email2)) as [Heq|Hne].
  - rewrite Heq, !lookup_insert_eq. simpl.
    by rewrite !insert_insert_eq, gset_union_swap.
  - rewrite !lookup_insert_ne by done. by apply insert_insert_ne.
Qed.

(** The state after an unregistration with non-empty arguments. *)
Lemma unregisterUserSession_state email sid st :
  email ≠ "" → sid ≠ "" →
  unregisterUserSession email sid st
  = set_userSessions
      (match userSessions st !! toLowerCase email with
       | Some ids =>
           if decide (ids ∖ {[sid]} = ∅)
           then delete (toLowerCase email) (userSessions st)
           else <[toLowerCase email := ids ∖ {[sid]}]> (userSessions st)
       | None => userSessions st
       end) st.
Proof.
  intros He Hs. apply state_eq; simpl.
  - by apply unregisterUserSession_lookup.
  - apply unregisterUserSession_frame.
  - apply unregisterUserSession_frame.
Qed.

Lemma set_userSessions_id st : set_userSessions (userSessions st) st = st.
Proof. by destruct st. Qed.

(** X3. On a directory that satisfies the invariant, registering a session
    id that the entry of the identity does not hold and unregistering it
    again restores the state: the entry is back to what it was, or absent
    again. *)
Theorem register_unregister_round_trip email sid st :
  directory_inv (userSessions st) →
  sid ∉ default ∅ (userSessions st !! toLowerCase email) →
  unregisterUserSession email sid (registerUserSession email sid st) = st.
Proof.
  intros Hinv Hsid.
  destruct (decide (sid = "")) as [->|Hs].
  { by rewrite registerUserSession_empty_sid, unregisterUserSession_empty_sid. }
  destruct (decide (email = "")) as [->|He]; [done|].
  rewrite unregisterUserSession_state, registerUserSession_state by done.
  apply state_eq; simpl; [|done..].
  rewrite lookup_insert_eq, gset_add_remove by done.
  destruct (userSessions st !! toLowerCase email) as [ids|] eqn:Hl; simpl.
  - rewrite decide_False by (by eapply Hinv).
    rewrite insert_insert_eq. by apply insert_id.
  - rewrite decide_True by done. by apply delete_insert_id.
Qed.

Lemma register_unregister_round_trip_witness :
  unregisterUserSession "Ann@Example.com" "s9"
    (registerUserSession "Ann@Example.com" "s9" Samples.st_out_of_sync)
  = Samples.st_out_of_sync.
Proof.
  apply register_unregister_round_trip.
  - intros k ids. simpl. intros [_ <-]%lookup_singleton_Some.
    apply non_empty_singleton_L.
  - apply (bool_decide_unpack _). vm_compute. exact I.
Defined.

(** X4. On a directory that satisfies the invariant, unregistering a
    session id that the entry of the identity does not hold, or for an
    identity without entry, changes nothing. *)
Theorem unregisterUserSession_unknown email sid st :
  directory_inv (userSessions st) →
  sid ∉ default ∅ (userSessions st !! toLowerCase email) →
  unregisterUserSession email sid st = st.
Proof.
  intros Hinv Hsid.
  destruct (decide (sid = "")) as [->|Hs];
    [by rewrite unregisterUserSession_empty_sid|].
  destruct (decide (email = "")) as [->|He]; [done|].
  rewrite unregisterUserSession_state by done.
  destruct (userSessions st !! toLowerCase email) as [ids|] eqn:Hl; simpl in *.
  - rewrite gset_remove_absent by done.
    rewrite decide_False by (by eapply Hinv).
    rewrite insert_id by done. apply set_userSessions_id.
  - apply set_userSessions_id.
Qed.

Lemma unregisterUserSession_unknown_witness :
  unregisterUserSession "ann@example.com" "s2" Samples.st_out_of_sync
  = Samples.st_out_of_sync.
Proof.
  apply unregisterUserSession_unknown.
  - intros k ids. simpl. intros [_ <-]%lookup_singleton_Some.
    apply non_empty_singleton_L.
  - apply (bool_decide_unpack _). vm_compute. exact I.
Defined.

Lemma keys_normalized_insert k ids (us : gmap string (gset string)) :
  toLowerCase k = k → keys_normalized us → keys_normalized (<[k := ids]> us).
Proof.
  intros Hk Hus k'. rewrite lookup_insert. case_decide; [by subst|apply Hus].
Qed.

Lemma keys_normalized_delete k (us : gmap string (gset string)) :
  keys_normalized us → keys_normalized (delete k us).
Proof.
  intros Hus k' [ids [_ Hl]%lookup_delete_Some]. apply Hus. by exists ids.
Qed.

Lemma registerUserSession_keys email sid st :
  keys_normalized (userSessions st) →
  keys_normalized (userSessions (registerUserSession email sid st)).
Proof.
  intros Hus.
  destruct (decide (sid = "")) as [->|Hs];
    [by rewrite registerUserSession_empty_sid|].
  destruct (decide (email = "")) as [->|He]; [done|].
  rewrite registerUserSession_lookup by done.
  apply keys_normalized_insert; [apply toLowerCase_idemp|done].
Qed.

Lemma unregisterUserSession_keys email sid st :
  keys_normalized (userSessions st) →
  keys_normalized (userSessions (unregisterUserSession email sid st)).
Proof.
  intros Hus.
  destruct (decide (sid = "")) as [->|Hs];
    [by rewrite unregisterUserSession_empty_sid|].
  destruct (decide (email = "")) as [->|He]; [done|].
  rewrite unregisterUserSession_lookup by done.
  destruct (userSessions st !! toLowerCase email); [|done].
  case_decide.
  - by apply keys_normalized_delete.
  - apply keys_normalized_insert; [apply toLowerCase_idemp|done].
Qed.

Lemma destroyUserSessions_keys email st :
  keys_normalized (userSessions st) →
  keys_normalized (userSessions (destroyUserSessions email st).2).
Proof.
  intros Hus.
  destruct email as [| |b|z|s|items|props|f];
    try (by destruct st); try (by destruct b); try (unfold destroyUserSessions;
      simpl; by repeat case_match).
  destruct (decide (s = "")) as [->|Hs]; [done|].
  rewrite destroyUserSessions_userSessions by done.
  by apply keys_normalized_delete.
Qed.

(** X5. Whatever sequence of registrations, unregistrations and bulk
    destructions runs from an empty directory, every key of the directory is
    a lowercased email, so a lookup by the lowercased email sees every entry
    there is. *)
Theorem keys_normalized_reachable ops st :
  userSessions st = ∅ →
  keys_normalized (userSessions (foldl (λ s o, apply_op o s) st ops)).
Proof.
  intros Hempty.
  assert (keys_normalized (userSessions st)) as Hus.
  { intros k [ids Hk]. by rewrite Hempty, lookup_empty in Hk. }
  clear Hempty. revert st Hus.
  induction ops as [|o ops IH]; intros st Hus; [done|].
  simpl. apply IH. destruct o; simpl.
  - by apply registerUserSession_keys.
  - by apply unregisterUserSession_keys.
  - by apply destroyUserSessions_keys.
Qed.

Lemma keys_normalized_reachable_witness :
  keys_normalized
    (userSessions
       (foldl (λ s o, apply_op o s) Samples.st_unregistered
          [OpRegister "Ann@Example.com" "s7"; OpRegister "BOB@example.com" "s8";
           OpUnregister "ann@example.com" "s7"])).
Proof. apply keys_normalized_reachable. reflexivity. Defined.

Lemma register_all_cons email sid sids st :
  register_all email (sid :: sids) st
  = register_all email sids (registerUserSession email sid st).
Proof. done. Qed.

Lemma register_all_lookup email sids st :
  email ≠ "" → Forall (λ sid, sid ≠ "") sids → sids ≠ [] →
  userSessions (register_all email sids st) !! toLowerCase email
  = Some (default ∅ (userSessions st !! toLowerCase email) ∪ list_to_set sids).
Proof.
  intros He Hall. revert st.
  induction Hall as [|sid sids Hsid Hall IH]; intros st Hne; [done|].
  rewrite register_all_cons.
  destruct sids as [|sid' sids'].
  - unfold register_all. simpl.
    rewrite registerUserSession_lookup, lookup_insert_eq by done.
    f_equal. apply leibniz_equiv. intros x.
    rewrite !elem_of_union, elem_of_empty. tauto.
  - rewrite IH by done.
    rewrite registerUserSession_lookup, lookup_insert_eq by done. simpl.
    f_equal. apply leibniz_equiv. intros x. rewrite !elem_of_union. tauto.
Qed.

(** X6. Registering the non-empty, pairwise distinct session ids of a list
    for an identity that has no entry leaves an entry that holds exactly
    these ids, as many as the list is long. *)
Theorem register_all_fresh email sids st :
  email ≠ "" →
  Forall (λ sid, sid ≠ "") sids →
  sids ≠ [] →
  NoDup sids →
  userSessions st !! toLowerCase email = None →
  ∃ ids,
    userSessions (register_all email sids st) !! toLowerCase email = Some ids
    ∧ (∀ sid, sid ∈ ids ↔ sid ∈ sids)
    ∧ size ids = length sids.
Proof.
  intros He Hall Hne Hnd Hnone.
  exists (list_to_set sids). split; [|split].
  - rewrite register_all_lookup, Hnone by done. simpl. f_equal.
    apply leibniz_equiv. intros x. rewrite elem_of_union, elem_of_empty. tauto.
  - intros sid. apply elem_of_list_to_set.
  - by apply size_list_to_set.
Qed.

Lemma register_all_fresh_witness :
  ∃ ids,
    userSessions (register_all "Bob@Example.com" ["s3"; "s4"] Samples.st_out_of_sync)
      !! toLowerCase "Bob@Example.com" = Some ids
    ∧ (∀ sid, sid ∈ ids ↔ sid ∈ ["s3"; "s4"])
    ∧ size ids = length ["s3"; "s4"].
Proof.
  apply register_all_fresh.
  - discriminate.
  - repeat constructor; discriminate.
  - discriminate.
  - apply (bool_decide_unpack _). vm_compute. exact I.
  - vm_compute. reflexivity.
Defined.

End DirectoryFacts.

(** ** More on bulk destruction *)

Module RevocationFacts.
Import SessionStore SessionStoreFacts DirectoryFacts.

Lemma truthy_VStr_lower e e' :
  toLowerCase e = toLowerCase e' → truthy (VStr e) = truthy (VStr e').
Proof.
  intros Hlow. destruct e, e'; simpl in *; try done; discriminate.
Qed.

(** X7. Bulk destruction does not depend on the case of the email: two
    spellings with the same lowercase form give the same result and the same
    state. *)
Theorem destroyUserSessions_case_insensitive email email' st :
  toLowerCase email = toLowerCase email' →
  destroyUserSessions (VStr email) st = destroyUserSessions (VStr email') st.
Proof.
  intros Hlow. unfold destroyUserSessions.
  rewrite (truthy_VStr_lower _ _ Hlow). cbn [call_toLowerCase].
  by rewrite Hlow.
Qed.

Lemma destroyUserSessions_case_insensitive_witness :
  destroyUserSessions (VStr "ANN@EXAMPLE.COM") Samples.st_out_of_sync
  = destroyUserSessions (VStr "ann@example.com") Samples.st_out_of_sync.
Proof. apply destroyUserSessions_case_insensitive. reflexivity. Defined.

(** X8. An email that is not a non-empty string reaches neither the
    directory nor the store: a falsy one resolves to 0, a truthy one that is
    not a string is rejected with a TypeError, and the state is the same
    in both cases. *)
Theorem destroyUserSessions_not_an_email email st :
  (∀ s, email = VStr s → s = "") →
  (destroyUserSessions email st).2 = st
  ∧ (truthy email = false → (destroyUserSessions email st).1 = Resolved 0)
  ∧ (truthy email = true →
     (destroyUserSessions email st).1
     = Rejected (TypeError "toLowerCase is not a function")).
Proof.
  intros Hemail. unfold destroyUserSessions.
  destruct email as [| |b|z|s|items|props|f]; simpl;
    try (repeat split; done); try (destruct b; repeat split; done).
  - destruct (negb (z =? 0)%Z); repeat split; done.
  - rewrite (Hemail s eq_refl). repeat split; done.
Qed.

Lemma destroyUserSessions_not_an_email_witness :
  (destroyUserSessions (VNum 5) Samples.st_out_of_sync).2 = Samples.st_out_of_sync
  ∧ (destroyUserSessions (VNum 5) Samples.st_out_of_sync).1
    = Rejected (TypeError "toLowerCase is not a function").
Proof.
  destruct (destroyUserSessions_not_an_email (VNum 5) Samples.st_out_of_sync)
    as (Hst & _ & Hrej); [discriminate|].
  split; [exact Hst|]. apply Hrej. reflexivity.
Defined.

Lemma scannable_without sids (l : list (string * session_data)) :
  Forall (λ e, scannable e.2 = true) l →
  Forall (λ e, scannable e.2 = true) (without sids l).
Proof.
  intros Hall. apply Forall_forall. intros e [_ He]%elem_of_without.
  by eapply Forall_forall in Hall.
Qed.

(** No record that is left after the hits were destroyed is a hit. *)
Lemma email_hits_without_hits ne (l : list (string * session_data)) :
  email_hits ne (without (email_hits ne l) l) = [].
Proof.
  apply elem_of_nil_inv. intros sid.
  rewrite elem_of_email_hits. intros (data & [Hnot Hin]%elem_of_without & Hhit).
  apply Hnot. simpl. apply elem_of_email_hits. by exists data.
Qed.

(** X9. Bulk destruction is idempotent: after a run in which every record
    could be scanned, a second run for the same identity finds no entry and
    no record to hit, returns 0, and only enumerates the store. *)
Theorem destroyUserSessions_twice email st :
  email ≠ "" →
  Forall (λ e, scannable e.2 = true) (store st) →
  ∃ n st1,
    destroyUserSessions (VStr email) st = (Resolved n, st1)
    ∧ destroyUserSessions (VStr email) st1
      = (Resolved 0,
         mkState (userSessions st1) (store st1) (calls st1 ++ [CallAll])).
Proof.
  intros He Hall.
  rewrite (destroyUserSessions_spec email st _ He Hall eq_refl).
  eexists _, _. split; [reflexivity|].
  rewrite (destroyUserSessions_spec email _ ∅ He).
  - cbn [userSessions store calls].
    rewrite elements_empty, !without_nil, email_hits_without_hits.
    rewrite without_nil, size_empty.
    rewrite delete_id by apply lookup_delete_eq. done.
  - cbn [store]. by do 2 apply scannable_without.
  - cbn [userSessions]. by rewrite lookup_delete_eq.
Qed.

Lemma destroyUserSessions_twice_witness :
  ∃ n st1,
    destroyUserSessions (VStr "ann@example.com") Samples.st_out_of_sync
    = (Resolved n, st1)
    ∧ destroyUserSessions (VStr "ann@example.com") st1
      = (Resolved 0,
         mkState (userSessions st1) (store st1) (calls st1 ++ [CallAll])).
Proof.
  apply destroyUserSessions_twice; [discriminate|repeat constructor].
Defined.

Lemma filter_key_absent (l : list (string * session_data)) sid :
  sid ∉ l.*1 → filter (λ e, e.1 ≠ sid) l = l.
Proof.
  induction l as [|[k v] l IH]; [done|]. rewrite fmap_cons.
  intros [Hk Hl]%not_elem_of_cons.
  rewrite filter_cons_True by (simpl in *; congruence). by rewrite IH.
Qed.

Lemma length_filter_key (l : list (string * session_data)) sid :
  NoDup l.*1 → length l ≤ S (length (filter (λ e, e.1 ≠ sid) l)).
Proof.
  induction l as [|[k v] l IH]; [simpl; lia|]. rewrite fmap_cons.
  intros [Hk Hnd]%NoDup_cons.
  destruct (decide (k = sid)) as [->|Hne].
  - rewrite filter_cons_False by (simpl; tauto).
    by rewrite filter_key_absent.
  - rewrite filter_cons_True by done. simpl. specialize (IH Hnd). lia.
Qed.

Lemma NoDup_filter_keys (P : string * session_data → Prop)
    `{∀ e, Decision (P e)} (l : list (string * session_data)) :
  NoDup l.*1 → NoDup (filter P l).*1.
Proof.
  intros Hnd. eapply sublist_NoDup; [exact Hnd|].
  apply fmap_sublist, sublist_filter.
Qed.

(** Each call of [destroy] removes at most one record of a store with
    distinct ids. *)
Lemma length_without sids (l : list (string * session_data)) :
  NoDup l.*1 → length l ≤ length (without sids l) + length sids.
Proof.
  revert l. induction sids as [|sid sids IH]; intros l Hnd.
  - rewrite without_nil. simpl. lia.
  - rewrite <- without_cons. simpl.
    pose proof (length_filter_key l sid Hnd).
    pose proof (IH _ (NoDup_filter_keys (λ e, e.1 ≠ sid) l Hnd)). lia.
Qed.

Lemma destroy_calls_map sids : destroy_calls (map CallDestroy sids) = length sids.
Proof.
  unfold destroy_calls. induction sids as [|sid sids IH]; [done|].
  cbn [map]. rewrite filter_cons_True by done. cbn [length]. by rewrite IH.
Qed.

(** X10. The number that bulk destruction returns is the number of
    [destroy] calls it made on the store, before and after its one
    enumeration; on a store with distinct ids it is at least the number of
    records that are gone. *)
Theorem destroyUserSessions_counts_calls email st :
  email ≠ "" →
  Forall (λ e, scannable e.2 = true) (store st) →
  NoDup (store st).*1 →
  ∃ n st' before after,
    destroyUserSessions (VStr email) st = (Resolved n, st')
    ∧ calls st' = calls st ++ before ++ CallAll :: after
    ∧ n = destroy_calls before + destroy_calls after
    ∧ destroy_calls before = length before
    ∧ destroy_calls after = length after
    ∧ length (store st) ≤ length (store st') + n.
Proof.
  intros He Hall Hnd.
  rewrite (destroyUserSessions_spec email st _ He Hall eq_refl).
  eexists _, _, _, _. split; [reflexivity|].
  cbn [calls store]. split; [reflexivity|].
  rewrite !destroy_calls_map, !length_map.
  assert (∀ X : gset string, size X = length (elements X)) as Hsize by done.
  rewrite Hsize. repeat split; try done.
  set (ids := elements _).
  pose proof (length_without ids (store st) Hnd).
  pose proof (length_without
                (email_hits (toLowerCase email) (without ids (store st)))
                (without ids (store st))
                (NoDup_filter_keys _ _ Hnd)). lia.
Qed.

Lemma destroyUserSessions_counts_calls_witness :
  ∃ n st' before after,
    destroyUserSessions (VStr "ann@example.com") Samples.st_out_of_sync
    = (Resolved n, st')
    ∧ calls st' = calls Samples.st_out_of_sync ++ before ++ CallAll :: after
    ∧ n = destroy_calls before + destroy_calls after
    ∧ destroy_calls before = length before
    ∧ destroy_calls after = length after
    ∧ length (store Samples.st_out_of_sync) ≤ length (store st') + n.
Proof.
  apply destroyUserSessions_counts_calls.
  - discriminate.
  - repeat constructor.
  - apply (bool_decide_unpack _). vm_compute. exact I.
Defined.

Lemma store_destroy_sublist sid st : store (store_destroy sid st) `sublist_of` store st.
Proof. apply sublist_filter. Qed.

Lemma destroy_members_sublist sids n st :
  store (destroy_members sids n st).2 `sublist_of` store st.
Proof.
  rewrite destroy_members_spec. apply sublist_filter.
Qed.

Lemma scan_by_email_sublist ne entries n st :
  store (scan_by_email ne entries n st).2 `sublist_of` store st.
Proof.
  revert n st. induction entries as [|[sid data] rest IH]; intros n st; [done|].
  simpl. repeat case_match; try done; try apply IH.
  etrans; [apply IH|]. apply store_destroy_sublist.
Qed.

(** X11. Bulk destruction only removes: whatever the email and whatever the
    store holds, also when the scan stops on an exception, the records of
    the store afterwards are records of the store before, in the same
    order, and every directory entry afterwards is an entry before, with the
    same set of session ids. *)
Theorem destroyUserSessions_only_removes email st :
  store (destroyUserSessions email st).2 `sublist_of` store st
  ∧ ∀ k ids,
      userSessions (destroyUserSessions email st).2 !! k = Some ids →
      userSessions st !! k = Some ids.
Proof.
  destruct email as [| |b|z|s|items|props|f];
    try (by destruct st); try (unfold destroyUserSessions; simpl;
      by repeat case_match).
  destruct (decide (s = "")) as [->|Hs]; [done|]. split.
  - unfold destroyUserSessions.
    apply truthy_VStr in Hs as ->. cbn [negb call_toLowerCase].
    destruct (has _ _).
    + rewrite destroy_members_spec.
      cbn [store_all set_userSessions userSessions store calls].
      match goal with
      | |- context [scan_by_email ?a ?b ?c ?d] =>
          pose proof (scan_by_email_sublist a b c d) as Hscan;
          destruct (scan_by_email a b c d) as [[k|e] st']
      end; simpl in *; (etrans; [exact Hscan|apply sublist_filter]).
    + cbn [store_all userSessions store calls].
      match goal with
      | |- context [scan_by_email ?a ?b ?c ?d] =>
          pose proof (scan_by_email_sublist a b c d) as Hscan;
          destruct (scan_by_email a b c d) as [[k|e] st']
      end; exact Hscan.
  - intros k ids. rewrite destroyUserSessions_userSessions by done.
    by intros [_ Hk]%lookup_delete_Some.
Qed.

End RevocationFacts.

(** ** More on the Universal Logout endpoint *)

Module EndpointFacts.
Import SessionStore UniversalLogout SessionStoreFacts UniversalLogoutFacts
  DirectoryFacts RevocationFacts.

(** A rejection comes before the directory and the store are reached. *)
Lemma destroyUserSessions_Rejected email st e st' :
  destroyUserSessions email st = (Rejected e, st') → st' = st.
Proof.
  unfold destroyUserSessions.
  destruct email as [| |b|z|s|items|props|f]; simpl;
    try (by intros [= <-]); try (destruct b; by intros [= <-]).
  - destruct (negb (z =? 0)%Z); by intros [= <-].
  - repeat case_match; by intros [=].
Qed.

Lemma universalLogoutAuth_Reply jwt_decode jws_verify jwks now
    orgUrl revocationEndpoint authorization r :
  universalLogoutAuth jwt_decode jws_verify jwks now orgUrl revocationEndpoint
    authorization = Reply r →
  ∃ description, r = Json 401 "unauthorized" description.
Proof.
  unfold universalLogoutAuth. repeat case_match; intros [= <-]; eauto.
Qed.

(** X12. Every request to the endpoint ends in one of six ways: 204; 401
    [unauthorized]; 400 [invalid_request]; 422 [unprocessable_entity]; 500
    [server_error], after an exception outside the [try] of the handler; or
    no response, after an exception in a store callback.  In particular it
    never answers 404.  With 401, 400, 422 and 500 the directory and the
    store are as before and no call was made on the store. *)
Theorem endpoint_outcomes jwt_decode jws_verify jwks now Number_toString
    orgUrl revocationEndpoint authorization body st :
  let run := global_token_revocation jwt_decode jws_verify jwks now
               Number_toString orgUrl revocationEndpoint authorization body st in
  run.1 = Responded (SendStatus 204)
  ∨ (∃ description,
       run = (Responded (Json 401 "unauthorized" description), st))
  ∨ (∃ description,
       run = (Responded (Json 400 "invalid_request" description), st))
  ∨ run = (Responded
             (Json 422 "unprocessable_entity" "Unable to revoke user sessions"),
           st)
  ∨ run = (Responded (Json 500 "server_error" "An unexpected error occurred"),
           st)
  ∨ ∃ e, run.1 = NoResponse e.
Proof.
  intros run. subst run. unfold global_token_revocation.
  destruct (universalLogoutAuth _ _ _ _ _ _ _) as [payload|r] eqn:Hauth.
  - unfold post_global_token_revocation, revocation_handler.
    destruct (truthy body); simpl; [|right; right; left; eauto].
    destruct (truthy (get_prop body "sub_id")); simpl;
      [|right; right; left; eauto].
    destruct (extractUserIdentifier _ _) as [[uid|]|err].
    + destruct (js_toString _ (identifier_value uid)) as [printed|err];
        [|by do 4 right; left].
      destruct uid as [v email|v issuer subject].
      * destruct (destroyUserSessions email st) as [[n|e|e] st'] eqn:Hrun.
        -- left. by destruct (n =? 0)%nat.
        -- apply destroyUserSessions_Rejected in Hrun as ->.
           by do 3 right; left.
        -- do 5 right. eauto.
      * rewrite destroyUserSessionsBySubject_run. left.
        by destruct (_ =? 0)%nat.
    + destruct (js_toString _ _) as [format|err];
        [right; right; left; eauto|by do 4 right; left].
    + by do 4 right; left.
  - apply universalLogoutAuth_Reply in Hauth as [description ->].
    right; left. eauto.
Qed.

(** *** The authorization header *)

Lemma split_space_no_space s : no_space s = true → split_space s = [s].
Proof.
  induction s as [|c s IH]; [done|]. simpl.
  intros [Hc Hs]%andb_true_iff. apply negb_true_iff in Hc. rewrite Hc.
  by rewrite IH.
Qed.

Lemma split_space_app a b :
  no_space a = true → split_space (a +:+ " " +:+ b) = a :: split_space b.
Proof.
  induction a as [|c a IH]; [done|]. simpl.
  intros [Hc Ha]%andb_true_iff. apply negb_true_iff in Hc. rewrite Hc.
  by rewrite IH.
Qed.

(** X13. The scheme of the authorization header is read without regard to
    case, and what follows the token after another space is ignored: such a
    header is treated as [Bearer] followed by the token. *)
Theorem authorization_header_normal_form jwt_decode jws_verify jwks now
    orgUrl revocationEndpoint scheme token rest :
  no_space scheme = true →
  no_space token = true →
  token ≠ "" →
  toLowerCase scheme = "bearer" →
  universalLogoutAuth jwt_decode jws_verify jwks now orgUrl revocationEndpoint
    (Some (scheme +:+ " " +:+ token +:+ " " +:+ rest))
  = universalLogoutAuth jwt_decode jws_verify jwks now orgUrl revocationEndpoint
      (Some ("Bearer " +:+ token))
  ∧ universalLogoutAuth jwt_decode jws_verify jwks now orgUrl revocationEndpoint
      (Some (scheme +:+ " " +:+ token))
    = universalLogoutAuth jwt_decode jws_verify jwks now orgUrl revocationEndpoint
        (Some ("Bearer " +:+ token)).
Proof.
  intros Hscheme Htoken Hne Hlow.
  assert (split_space ("Bearer " +:+ token) = ["Bearer"; token]) as Hnormal.
  { change ("Bearer " +:+ token) with ("Bearer" +:+ " " +:+ token).
    by rewrite split_space_app, split_space_no_space. }
  rewrite (universalLogoutAuth_bearer _ _ _ _ _ _ ("Bearer " +:+ token)
             "Bearer" token [] Hnormal eq_refl Hne).
  split.
  - apply (universalLogoutAuth_bearer _ _ _ _ _ _ _ scheme token
             (split_space rest)); [|done..].
    by rewrite !split_space_app.
  - apply (universalLogoutAuth_bearer _ _ _ _ _ _ _ scheme token []); [|done..].
    by rewrite split_space_app, split_space_no_space.
Qed.

Lemma authorization_header_normal_form_witness :
  universalLogoutAuth Samples.sample_decode Samples.sample_jws_verify
    Samples.sample_jwks 2000 "https://org.okta.com/"
    "https://bank.example/api/global-token-revocation"
    (Some ("BEARER" +:+ " " +:+ "valid.jwt.sig" +:+ " " +:+ "and more"))
  = universalLogoutAuth Samples.sample_decode Samples.sample_jws_verify
      Samples.sample_jwks 2000 "https://org.okta.com/"
      "https://bank.example/api/global-token-revocation"
      (Some ("Bearer " +:+ "valid.jwt.sig")).
Proof.
  apply (authorization_header_normal_form Samples.sample_decode
           Samples.sample_jws_verify Samples.sample_jwks 2000
           "https://org.okta.com/"
           "https://bank.example/api/global-token-revocation"
           "BEARER" "valid.jwt.sig" "and more");
    [reflexivity|reflexivity|discriminate|reflexivity].
Defined.

(** X14. A header that gives no token is refused before any token is
    looked at: a non-empty header without a space, and a header whose scheme
    is followed by a space and nothing or by two spaces, are answered 401
    with the description of an invalid scheme, whatever the scheme is. *)
Theorem authorization_header_without_token jwt_decode jws_verify jwks now
    orgUrl revocationEndpoint scheme rest :
  scheme ≠ "" →
  no_space scheme = true →
  let invalid :=
    Reply (Json 401 "unauthorized"
             "Invalid authorization scheme. Expected: Bearer {token}") in
  universalLogoutAuth jwt_decode jws_verify jwks now orgUrl revocationEndpoint
    (Some scheme) = invalid
  ∧ universalLogoutAuth jwt_decode jws_verify jwks now orgUrl revocationEndpoint
      (Some (scheme +:+ " ")) = invalid
  ∧ universalLogoutAuth jwt_decode jws_verify jwks now orgUrl revocationEndpoint
      (Some (scheme +:+ " " +:+ " " +:+ rest)) = invalid.
Proof.
  intros Hne Hscheme invalid. subst invalid. unfold universalLogoutAuth.
  assert (∀ tail, ∃ c s, scheme +:+ tail = String c s) as Hcons.
  { intros tail. destruct scheme as [|c s]; [done|]. simpl. eauto. }
  split; [|split].
  - destruct scheme as [|c s]; [done|].
    rewrite split_space_no_space by done. simpl. by rewrite orb_true_r.
  - destruct (Hcons " ") as (c & s & Heq). rewrite Heq, <- Heq.
    change (scheme +:+ " ") with (scheme +:+ " " +:+ "").
    rewrite split_space_app by done. simpl. by rewrite orb_true_r.
  - destruct (Hcons (" " +:+ " " +:+ rest)) as (c & s & Heq).
    rewrite Heq, <- Heq. rewrite split_space_app by done.
    simpl. by rewrite orb_true_r.
Qed.

Lemma authorization_header_without_token_witness :
  universalLogoutAuth Samples.sample_decode Samples.sample_jws_verify
    Samples.sample_jwks 2000 "https://org.okta.com/"
    "https://bank.example/api/global-token-revocation"
    (Some ("Bearer" +:+ " " +:+ " " +:+ "valid.jwt.sig"))
  = Reply (Json 401 "unauthorized"
             "Invalid authorization scheme. Expected: Bearer {token}").
Proof.
  apply (authorization_header_without_token Samples.sample_decode
           Samples.sample_jws_verify Samples.sample_jwks 2000
           "https://org.okta.com/"
           "https://bank.example/api/global-token-revocation"
           "Bearer" "valid.jwt.sig");
    [discriminate|reflexivity].
Defined.

(** *** The issuer and the key set *)

Lemma strip_trailing_slash_app s : strip_trailing_slash (s +:+ "/") = s.
Proof.
  induction s as [|c s IH]; [done|].
  simpl. rewrite IH. by destruct s.
Qed.

(** X15. A slash at the end of the configured organisation URL makes no
    difference: with and without it the middleware expects the same issuer
    and decides every request the same way, and the key client is created
    for the same key set URI. *)
Theorem trailing_slash_ignored jwt_decode jws_verify jwks now
    jwksClient orgUrl revocationEndpoint authorization :
  strip_trailing_slash orgUrl = orgUrl →
  universalLogoutAuth jwt_decode jws_verify jwks now (orgUrl +:+ "/")
    revocationEndpoint authorization
  = universalLogoutAuth jwt_decode jws_verify jwks now orgUrl
      revocationEndpoint authorization
  ∧ initializeJwksClient jwksClient (orgUrl +:+ "/")
    = initializeJwksClient jwksClient orgUrl
  ∧ initializeJwksClient jwksClient orgUrl
    = Some (jwksClient (orgUrl +:+ "/oauth2/v1/keys")).
Proof.
  intros Hstrip. unfold universalLogoutAuth, initializeJwksClient.
  by rewrite strip_trailing_slash_app, Hstrip.
Qed.

Lemma trailing_slash_ignored_witness :
  universalLogoutAuth Samples.sample_decode Samples.sample_jws_verify
    Samples.sample_jwks 2000 ("https://org.okta.com" +:+ "/")
    "https://bank.example/api/global-token-revocation"
    (Some "Bearer valid.jwt.sig")
  = universalLogoutAuth Samples.sample_decode Samples.sample_jws_verify
      Samples.sample_jwks 2000 "https://org.okta.com"
      "https://bank.example/api/global-token-revocation"
      (Some "Bearer valid.jwt.sig").
Proof.
  apply (trailing_slash_ignored Samples.sample_decode Samples.sample_jws_verify
           Samples.sample_jwks 2000 (λ _ _, Ok "okta-public-key")
           "https://org.okta.com"
           "https://bank.example/api/global-token-revocation"
           (Some "Bearer valid.jwt.sig")).
  reflexivity.
Defined.

(** X16. A bearer token that cannot be decoded, and any bearer token while
    the key client is not initialised, is answered 401 with the description
    ['Token validation failed']; the signature, the issuer, the audience
    and the times of the token play no part. *)
Theorem token_validation_failed jwt_decode jws_verify jwks now
    orgUrl revocationEndpoint authHeader scheme token rest :
  split_space authHeader = scheme :: token :: rest →
  toLowerCase scheme = "bearer" →
  token ≠ "" →
  jwt_decode token = None ∨ jwks = None →
  universalLogoutAuth jwt_decode jws_verify jwks now orgUrl revocationEndpoint
    (Some authHeader)
  = Reply (Json 401 "unauthorized" "Token validation failed").
Proof.
  intros Hsplit Hscheme Htoken Hcause.
  rewrite (universalLogoutAuth_bearer _ _ _ _ _ _ _ _ _ _ Hsplit Hscheme Htoken).
  unfold validateLogoutToken.
  destruct (jwt_decode token) as [d|]; [|done].
  destruct Hcause as [Hbad| ->]; done.
Qed.

Lemma token_validation_failed_witness :
  universalLogoutAuth Samples.sample_decode Samples.sample_jws_verify
    None 2000 "https://org.okta.com/"
    "https://bank.example/api/global-token-revocation"
    (Some "Bearer valid.jwt.sig")
  = Reply (Json 401 "unauthorized" "Token validation failed").
Proof.
  apply (token_validation_failed Samples.sample_decode Samples.sample_jws_verify
           None 2000 "https://org.okta.com/"
           "https://bank.example/api/global-token-revocation"
           "Bearer valid.jwt.sig" "Bearer" "valid.jwt.sig" []);
    [reflexivity|reflexivity|discriminate|by right].
Defined.

Lemma jwt_verify_Ok jwt_decode jws_verify now token key algorithms
    issuer audience tolerance p :
  jwt_verify jwt_decode jws_verify now token key algorithms issuer audience
    tolerance = Ok p →
  ∃ d,
    jwt_decode token = Some d ∧ p = payload d
    ∧ alg (header d) ∈ algorithms
    ∧ jws_verify token (alg (header d)) key = true
    ∧ (∀ t, nbf p = Some t → (t <= now + tolerance)%Z)
    ∧ (∀ t, exp p = Some t → (now < t + tolerance)%Z)
    ∧ audience ∈ aud p
    ∧ iss p = Some issuer.
Proof.
  unfold jwt_verify. destruct (jwt_decode token) as [d|]; [|done].
  destruct (existsb _ algorithms) eqn:Halg; [|done]. simpl.
  destruct (jws_verify _ _ _) eqn:Hsig; [|done]. simpl.
  destruct (match nbf (payload d) with Some _ => _ | None => _ end) eqn:Hnbf;
    [done|].
  destruct (match exp (payload d) with Some _ => _ | None => _ end) eqn:Hexp;
    [done|].
  destruct (existsb _ (aud (payload d))) eqn:Haud; [|done]. simpl.
  case_bool_decide as Hiss; [|done]. simpl.
  intros [= <-]. exists d. repeat split; try done.
  - apply existsb_exists in Halg as (a & Ha & Heq).
    apply String.eqb_eq in Heq as ->. by apply list_elem_of_In.
  - intros t Ht. rewrite Ht in Hnbf. lia.
  - intros t Ht. rewrite Ht in Hexp. lia.
  - apply existsb_exists in Haud as (a & Ha & Heq).
    apply String.eqb_eq in Heq as ->. by apply list_elem_of_In.
Qed.

(** X17. The middleware calls [next()] only for a request whose header
    holds the scheme [bearer], in any case, and a token that decodes; the
    payload it attaches is the decoded one; the key client is initialised
    and resolved the key id of the token; and [jwt.verify], as modelled,
    accepted the token: one of the three RSA algorithms, a signature that
    verifies under the resolved key, the expected issuer, the revocation
    endpoint among the audiences, and times within 30 seconds of the
    clock. *)
Theorem admitted_requests_are_validated jwt_decode jws_verify jwks now
    orgUrl revocationEndpoint authorization logoutToken :
  universalLogoutAuth jwt_decode jws_verify jwks now orgUrl revocationEndpoint
    authorization = Next logoutToken →
  ∃ authHeader scheme token d client key,
    authorization = Some authHeader
    ∧ split_space authHeader !! 0%nat = Some scheme
    ∧ split_space authHeader !! 1%nat = Some token
    ∧ toLowerCase scheme = "bearer"
    ∧ jwt_decode token = Some d
    ∧ logoutToken = payload d
    ∧ jwks = Some client
    ∧ client (kid (header d)) = Ok key
    ∧ alg (header d) ∈ ["RS256"; "RS384"; "RS512"]
    ∧ jws_verify token (alg (header d)) key = true
    ∧ iss logoutToken = Some (strip_trailing_slash orgUrl)
    ∧ revocationEndpoint ∈ aud logoutToken
    ∧ (∀ t, exp logoutToken = Some t → (now - 30 < t)%Z)
    ∧ (∀ t, nbf logoutToken = Some t → (t <= now + 30)%Z).
Proof.
  unfold universalLogoutAuth.
  destruct authorization as [[|c s]|]; [done| |done].
  set (authHeader := String c s).
  destruct (split_space authHeader !! 0%nat) as [scheme|] eqn:H0;
    destruct (split_space authHeader !! 1%nat) as [token|] eqn:H1; simpl;
    try (rewrite ?orb_true_r; by intros [=]).
  destruct (String.eqb (toLowerCase scheme) "bearer") eqn:Hscheme; [|done].
  apply String.eqb_eq in Hscheme.
  destruct (negb (String.eqb token "")) eqn:Htoken; [|done]. simpl.
  unfold validateLogoutToken.
  destruct (jwt_decode token) as [d|] eqn:Hd; [|done].
  unfold getSigningKey.
  destruct jwks as [client|]; [|done].
  destruct (client (kid (header d))) as [key|err] eqn:Hkey; simpl;
    [|by repeat case_match].
  destruct (jwt_verify _ _ _ _ _ _ _ _ _) as [p|err] eqn:Hverify;
    [|by repeat case_match].
  intros [= <-].
  apply jwt_verify_Ok in Hverify
    as (d' & Hd' & -> & Halg & Hsig & Hnbf & Hexp & Haud & Hiss).
  rewrite Hd in Hd'. injection Hd' as <-.
  exists authHeader, scheme, token, d, client, key.
  repeat split; try done.
  intros t Ht. specialize (Hexp t Ht). lia.
Qed.

Lemma admitted_requests_are_validated_witness :
  ∃ authHeader scheme token d client key,
    Some "Bearer valid.jwt.sig" = Some authHeader
    ∧ split_space authHeader !! 0%nat = Some scheme
    ∧ split_space authHeader !! 1%nat = Some token
    ∧ toLowerCase scheme = "bearer"
    ∧ Samples.sample_decode token = Some d
    ∧ Samples.okta_claims 5000 = payload d
    ∧ Samples.sample_jwks = Some client
    ∧ client (kid (header d)) = Ok key
    ∧ alg (header d) ∈ ["RS256"; "RS384"; "RS512"]
    ∧ Samples.sample_jws_verify token (alg (header d)) key = true
    ∧ iss (Samples.okta_claims 5000)
      = Some (strip_trailing_slash "https://org.okta.com/")
    ∧ "https://bank.example/api/global-token-revocation"
      ∈ aud (Samples.okta_claims 5000)
    ∧ (∀ t, exp (Samples.okta_claims 5000) = Some t → (2000 - 30 < t)%Z)
    ∧ (∀ t, nbf (Samples.okta_claims 5000) = Some t → (t <= 2000 + 30)%Z).
Proof.
  apply (admitted_requests_are_validated Samples.sample_decode
           Samples.sample_jws_verify Samples.sample_jwks 2000
           "https://org.okta.com/"
           "https://bank.example/api/global-token-revocation"
           (Some "Bearer valid.jwt.sig") (Samples.okta_claims 5000)).
  reflexivity.
Defined.

(** *** Revocation by subject *)

Lemma elem_of_subject_hits subject (l : list (string * session_data)) sid :
  sid ∈ subject_hits subject l
  ↔ ∃ data, (sid, data) ∈ l ∧ subject_hit subject data = true.
Proof.
  unfold subject_hits. rewrite list_elem_of_fmap. split.
  - intros [[sid' data] [-> [Hhit Hin]%list_elem_of_filter]].
    exists data. split; [done|]. by apply Is_true_true.
  - intros [data [Hin Hhit]]. exists (sid, data). split; [done|].
    apply list_elem_of_filter. split; [|done]. by apply Is_true_true.
Qed.

(** X18. On a store with distinct ids, a revocation by subject removes a
    record exactly when the record has a principal whose [id], or whose
    [_json.sub], is strictly equal to the subject; a record without
    principal, or of another subject, stays. *)
Theorem destroyUserSessionsBySubject_records subject st :
  NoDup (store st).*1 →
  ∀ sid data,
    (sid, data) ∈ store st →
    ((sid, data) ∉ store (destroyUserSessionsBySubject subject st).2
     ↔ ∃ user,
         principal_of data = Some user
         ∧ (strict_eq (get_prop user "id") subject = true
            ∨ strict_eq (opt_prop (get_prop user "_json") "sub") subject = true)).
Proof.
  intros Hnd sid data Hin. rewrite destroyUserSessionsBySubject_run.
  cbn [store snd]. rewrite elem_of_without. cbn [fst].
  rewrite elem_of_subject_hits.
  assert (subject_hit subject data = true
          ↔ ∃ user,
              principal_of data = Some user
              ∧ (strict_eq (get_prop user "id") subject = true
                 ∨ strict_eq (opt_prop (get_prop user "_json") "sub") subject
                   = true)) as Hhit.
  { unfold subject_hit. destruct (principal_of data) as [user|].
    - rewrite orb_true_iff. split; [by exists user|].
      by intros (user' & [= <-] & H).
    - split; [done|]. by intros (user & ? & _). }
  rewrite <- Hhit. split.
  - intros Hgone. destruct (subject_hit subject data) eqn:Hd; [done|].
    destruct Hgone. split; [|done].
    intros (data' & Hin' & Hhit').
    rewrite (NoDup_fst_functional _ _ _ _ Hnd Hin Hin') in Hd. congruence.
  - intros Hd [Hnot _]. apply Hnot. by exists data.
Qed.

Lemma destroyUserSessionsBySubject_records_witness :
  NoDup (store Samples.st_out_of_sync).*1
  ∧ ("s3", Samples.session_of (Samples.profile "00u2" "bob@example.com"))
      ∈ store Samples.st_out_of_sync
  ∧ (("s3", Samples.session_of (Samples.profile "00u2" "bob@example.com"))
       ∉ store (destroyUserSessionsBySubject (VStr "00u1")
                  Samples.st_out_of_sync).2
     ↔ ∃ user,
         principal_of (Samples.session_of
                         (Samples.profile "00u2" "bob@example.com"))
         = Some user
         ∧ (strict_eq (get_prop user "id") (VStr "00u1") = true
            ∨ strict_eq (opt_prop (get_prop user "_json") "sub") (VStr "00u1")
              = true)).
Proof.
  assert (NoDup (store Samples.st_out_of_sync).*1) as Hnd.
  { apply (bool_decide_unpack _). vm_compute. exact I. }
  assert (("s3", Samples.session_of (Samples.profile "00u2" "bob@example.com"))
            ∈ store Samples.st_out_of_sync) as Hin.
  { unfold Samples.st_out_of_sync. cbn [store].
    do 2 apply list_elem_of_further. apply list_elem_of_here. }
  split_and!; [exact Hnd|exact Hin|].
  exact (destroyUserSessionsBySubject_records (VStr "00u1")
           Samples.st_out_of_sync Hnd "s3" _ Hin).
Defined.

Lemma subject_hits_without_hits subject (l : list (string * session_data)) :
  subject_hits subject (without (subject_hits subject l) l) = [].
Proof.
  apply elem_of_nil_inv. intros sid.
  rewrite elem_of_subject_hits.
  intros (data & [Hnot Hin]%elem_of_without & Hhit).
  apply Hnot. simpl. apply elem_of_subject_hits. by exists data.
Qed.

(** X19. Revocation by subject is idempotent: a second run for the same
    subject returns 0 and only enumerates the store. *)
Theorem destroyUserSessionsBySubject_twice subject st :
  destroyUserSessionsBySubject subject
    (destroyUserSessionsBySubject subject st).2
  = (Resolved 0,
     mkState (userSessions st)
       (store (destroyUserSessionsBySubject subject st).2)
       (calls (destroyUserSessionsBySubject subject st).2 ++ [CallAll])).
Proof.
  rewrite (destroyUserSessionsBySubject_run subject st). cbn [snd].
  rewrite destroyUserSessionsBySubject_run. cbn [userSessions store calls].
  by rewrite subject_hits_without_hits, without_nil.
Qed.

(** *** Parsing the subject identifier *)

Lemma js_toString_Throw_receiver Number_toString o k err :
  js_toString Number_toString (get_prop o k) = Throw err →
  ∃ props, o = VObj props.
Proof.
  destruct o; simpl; try discriminate; [|by eauto].
  by destruct (String.eqb k "sub").
Qed.

(** X27. Parsing accepts a subject identifier in exactly two cases: its
    [format] is ['email'] and its [email] is truthy, or its [format] is
    ['iss_sub'], its [iss] and [sub] are truthy and both convert to a
    string, the composite key being the two strings joined by ["|"].  For
    fields that are strings, truthy is non-empty.  When it accepts none,
    the route replies 400 [invalid_request], and for a subject identifier
    that is present the description names its [format], if the format
    converts to a string; if it does not, the reply is 500 [server_error],
    as it is when the parsing raises, which it does only while it builds
    the composite key.  In each of these cases the state is as before. *)
Theorem subject_identifier_parsing Number_toString body st :
  let sub_id := get_prop body "sub_id" in
  let parsed := extractUserIdentifier Number_toString sub_id in
  let reply := post_global_token_revocation Number_toString body st in
  (∀ uid,
     parsed = Ok (Some uid) ↔
       (get_prop sub_id "format" = VStr "email"
        ∧ truthy (get_prop sub_id "email") = true
        ∧ uid = EmailIdentifier (get_prop sub_id "email") (get_prop sub_id "email"))
       ∨ (get_prop sub_id "format" = VStr "iss_sub"
          ∧ truthy (get_prop sub_id "iss") = true
          ∧ truthy (get_prop sub_id "sub") = true
          ∧ ∃ i s,
              js_toString Number_toString (get_prop sub_id "iss") = Ok i
              ∧ js_toString Number_toString (get_prop sub_id "sub") = Ok s
              ∧ uid = IssSubIdentifier (i +:+ "|" +:+ s)
                        (get_prop sub_id "iss") (get_prop sub_id "sub")))
  ∧ (∀ e,
       get_prop sub_id "format" = VStr "email" →
       get_prop sub_id "email" = VStr e →
       (parsed = Ok (Some (EmailIdentifier (VStr e) (VStr e))) ↔ e ≠ ""))
  ∧ (∀ i s,
       get_prop sub_id "format" = VStr "iss_sub" →
       get_prop sub_id "iss" = VStr i →
       get_prop sub_id "sub" = VStr s →
       (parsed = Ok (Some (IssSubIdentifier (i +:+ "|" +:+ s) (VStr i) (VStr s)))
        ↔ i ≠ "" ∧ s ≠ ""))
  ∧ (parsed = Ok None →
     match js_toString Number_toString (get_prop sub_id "format") with
     | Ok format =>
         ∃ description,
           reply = (Responded (Json 400 "invalid_request" description), st)
           ∧ (truthy sub_id = true →
              description
              = "Unrecognized subject identifier format: " +:+ format
                +:+ ". Supported formats: email, iss_sub")
     | Throw _ =>
         reply
         = (Responded (Json 500 "server_error" "An unexpected error occurred"),
            st)
     end)
  ∧ (∀ err,
       parsed = Throw err →
       get_prop sub_id "format" = VStr "iss_sub"
       ∧ (js_toString Number_toString (get_prop sub_id "iss") = Throw err
          ∨ js_toString Number_toString (get_prop sub_id "sub") = Throw err)
       ∧ reply
         = (Responded (Json 500 "server_error" "An unexpected error occurred"),
            st)).
Proof.
  intros sub_id parsed reply. subst parsed reply.
  split; [intros uid; apply extractUserIdentifier_Some|]. split_and!.
  - intros e Hf He. rewrite extractUserIdentifier_Some, Hf, He.
    rewrite truthy_VStr. split.
    + by intros [(_ & ? & _)|(? & _)].
    + intros Hne. by left.
  - intros i s0 Hf Hi Hs. rewrite extractUserIdentifier_Some, Hf, Hi, Hs.
    rewrite !truthy_VStr. split.
    + by intros [(? & _)|(_ & ? & ? & _)].
    + intros [? ?]. right. split_and!; [done..|]. by exists i, s0.
  - intros Hnone.
    destruct (js_toString _ (get_prop sub_id "format")) as [format|err]
      eqn:Hprint.
    + destruct (truthy body) eqn:Hbody;
        [destruct (truthy sub_id) eqn:Hsub|].
      * rewrite post_global_token_revocation_None by done.
        fold sub_id. rewrite Hprint. eauto.
      * unfold post_global_token_revocation, revocation_handler.
        fold sub_id. rewrite Hbody, Hsub. simpl.
        eexists. split; [done|]. discriminate.
      * unfold post_global_token_revocation, revocation_handler.
        rewrite Hbody. simpl. eexists. split; [done|].
        intros Hsub. by destruct body.
    + destruct (js_toString_Throw_receiver _ _ _ _ Hprint) as [props Hobj].
      assert (truthy sub_id = true) as Hsub by (by rewrite Hobj).
      assert (truthy body = true) as Hbody.
      { subst sub_id. destruct body; simpl in Hobj; try discriminate; done. }
      rewrite post_global_token_revocation_None by done.
      fold sub_id. by rewrite Hprint.
  - intros err Hthrow.
    destruct (extractUserIdentifier_body Number_toString body) as [Hbody Hsub];
      [fold sub_id; by rewrite Hthrow|].
    fold sub_id in Hsub. split_and!.
    + by apply extractUserIdentifier_Throw in Hthrow as (? & _).
    + apply extractUserIdentifier_Throw in Hthrow as (_ & _ & _ & Hcause).
      destruct Hcause as [?|(i & _ & ?)]; auto.
    + unfold post_global_token_revocation, revocation_handler.
      fold sub_id. by rewrite Hbody, Hsub, Hthrow.
Qed.

End EndpointFacts.

(** ** More on the wire-transfer routes *)

Module RouterFacts.
Import WireTransfer WireTransferFacts.

(** X20. A request that is not authenticated is redirected to ["/login"] by
    both routes; neither the gate nor a handler runs, and nothing is written
    to the session, whatever the marker and the form are. *)
Theorem unauthenticated_redirected parseFloat toFixed2 refNumber timestamp
    now req :
  isAuthenticated req = false →
  router_get now req = (Redirect "/login", req)
  ∧ router_post parseFloat toFixed2 refNumber timestamp req
    = (Redirect "/login", req).
Proof.
  intros Hauth. unfold router_get, router_post. simpl.
  unfold ensureLoggedIn. by rewrite Hauth.
Qed.

Lemma unauthenticated_redirected_witness :
  router_get 1000
    (mkRequest false (Samples.marked_at 900) None Samples.valid_form)
  = (Redirect "/login",
     mkRequest false (Samples.marked_at 900) None Samples.valid_form)
  ∧ router_post Samples.sample_parseFloat Samples.sample_toFixed2 "R" "T"
      (mkRequest false (Samples.marked_at 900) None Samples.valid_form)
    = (Redirect "/login",
       mkRequest false (Samples.marked_at 900) None Samples.valid_form).
Proof.
  apply (unauthenticated_redirected Samples.sample_parseFloat
           Samples.sample_toFixed2 "R" "T" 1000).
  reflexivity.
Defined.

Lemma router_get_marker now req :
  mfaVerified (req_session (router_get now req).2) = mfaVerified (req_session req)
  ∧ mfaVerifiedAt (req_session (router_get now req).2)
    = mfaVerifiedAt (req_session req).
Proof.
  unfold router_get. simpl. unfold ensureLoggedIn.
  destruct (isAuthenticated req); [|done].
  rewrite ensureMfaVerified_cases. by destruct (_ && _).
Qed.

(** X21. A visit never extends the window: GET leaves the marker and its
    time as they are, whether it renders the form or redirects, and a
    request that the gate holds back at one time is held back at every
    later time, also after the visit. *)
Theorem gate_never_extends now now' req :
  (now <= now')%Z →
  mfaVerified (req_session (router_get now req).2) = mfaVerified (req_session req)
  ∧ mfaVerifiedAt (req_session (router_get now req).2)
    = mfaVerifiedAt (req_session req)
  ∧ (ensureMfaVerified now req ≠ Next req →
     ensureMfaVerified now' req ≠ Next req
     ∧ ensureMfaVerified now' (router_get now req).2
       ≠ Next (router_get now req).2).
Proof.
  intros Hlater.
  destruct (router_get_marker now req) as [Hflag Hat].
  split; [done|]. split; [done|].
  assert (∀ r, mfaVerified (req_session r) = mfaVerified (req_session req) →
               mfaVerifiedAt (req_session r) = mfaVerifiedAt (req_session req) →
               ensureMfaVerified now req ≠ Next req →
               ensureMfaVerified now' r ≠ Next r) as Hmono.
  { intros r Hf Ha Hstale. rewrite ensureMfaVerified_cases in *.
    match goal with
    | |- (if ?c then _ else _) ≠ _ => destruct c eqn:Hc'; [|done]
    end.
    apply gate_condition in Hc' as (Hflag' & t & Ht & Hne & Hlt).
    rewrite Hf in Hflag'. rewrite Ha in Ht.
    assert (truthy_flag (mfaVerified (req_session req))
            && truthy_time (mfaVerifiedAt (req_session req))
            && (now - default 0 (mfaVerifiedAt (req_session req)) <? MFA_TIMEOUT)%Z
            = true) as Hc.
    { apply gate_condition. split; [done|]. exists t. repeat split; [done..|lia]. }
    by rewrite Hc in Hstale. }
  intros Hstale. split; by apply Hmono.
Qed.

Lemma gate_never_extends_witness :
  mfaVerifiedAt
    (req_session
       (router_get 1000301000 (Samples.request_with (Samples.marked_at 1000000000))).2)
  = mfaVerifiedAt (req_session (Samples.request_with (Samples.marked_at 1000000000)))
  ∧ ensureMfaVerified 1000400000
      (router_get 1000301000 (Samples.request_with (Samples.marked_at 1000000000))).2
    ≠ Next (router_get 1000301000
              (Samples.request_with (Samples.marked_at 1000000000))).2.
Proof.
  destruct (gate_never_extends 1000301000 1000400000
              (Samples.request_with (Samples.marked_at 1000000000)))
    as (_ & Hat & Hstale); [lia|].
  split; [exact Hat|]. apply Hstale. vm_compute. discriminate.
Defined.

(** *** What the POST handler accepts *)

Lemma find_account_Some x a :
  find_account x = Some a →
  x = Some "checking" ∨ x = Some "savings".
Proof.
  destruct x as [s|]; [|done].
  unfold find_account, SOURCE_ACCOUNTS. cbn [List.find id].
  destruct (String.eqb "checking" s) eqn:H1.
  { apply String.eqb_eq in H1 as <-. auto. }
  destruct (String.eqb "savings" s) eqn:H2; [|done].
  apply String.eqb_eq in H2 as <-. auto.
Qed.

Lemma find_account_known x :
  x = Some "checking" ∨ x = Some "savings" → is_Some (find_account x).
Proof. intros [->| ->]; by eexists. Qed.

Lemma one_error_nil (c : bool) (msg : string) :
  (if c then [msg] else []) = [] ↔ c = false.
Proof. by destruct c. Qed.

Lemma present_Some (x : option string) :
  negb (truthy (VStr (default "" x))) = false ↔ ∃ s, x = Some s ∧ s ≠ "".
Proof.
  destruct x as [s|]; simpl.
  - rewrite negb_false_iff, negb_true_iff. split.
    + intros Hs. exists s. split; [done|]. intros ->. done.
    + intros (s' & [= <-] & Hne). by apply String.eqb_neq.
  - split; [done|]. by intros (s & ? & _).
Qed.

(** X22. The POST handler confirms a transfer exactly when the source
    account is ["checking"] or ["savings"], the recipient name, the recipient
    bank and the account number are present and not blank, the routing
    number is nine digits once trimmed, and the amount is present, parses to
    a number above 0 and does not exceed the balance of the source account.
    Otherwise it renders the form again with the messages joined by spaces
    and the submitted fields. *)
Theorem post_handler_accepts parseFloat toFixed2 refNumber timestamp req :
  let f := body req in
  let parsed := parseFloat (amount f) in
  (validate parseFloat toFixed2 f = []
   ↔ (fromAccount f = Some "checking" ∨ fromAccount f = Some "savings")
     ∧ blank (recipientName f) = false
     ∧ blank (recipientBank f) = false
     ∧ (∃ r, routingNumber f = Some r ∧ nine_digits (trim r) = true)
     ∧ blank (accountNumber f) = false
     ∧ (∃ a, amount f = Some a ∧ a ≠ "")
     ∧ PrimFloat.is_nan parsed = false
     ∧ PrimFloat.leb parsed 0%float = false
     ∧ (∀ a, find_account (fromAccount f) = Some a →
             PrimFloat.ltb (balance a) parsed = false))
  ∧ (validate parseFloat toFixed2 f = [] →
     ∃ details,
       post_handler parseFloat toFixed2 refNumber timestamp req
       = RenderConfirm (isAuthenticated req) details
       ∧ t_amount details = toFixed2 parsed
       ∧ t_refNumber details = refNumber)
  ∧ (validate parseFloat toFixed2 f ≠ [] →
     post_handler parseFloat toFixed2 refNumber timestamp req
     = RenderForm (isAuthenticated req) SOURCE_ACCOUNTS
         (Some (join_space (validate parseFloat toFixed2 f))) (Some f)).
Proof.
  intros f parsed. split; [|split].
  - unfold validate. fold parsed. rewrite !app_nil, !one_error_nil.
    rewrite !orb_false_iff, !present_Some, !negb_false_iff.
    rewrite bool_decide_eq_true. split.
    + intros ([(s & Hs & Hne) Hacc] & Hname & Hbank & [(r & Hr & Hrne) Hdigits]
              & Hnum & [[Ham Hnan] Hpos] & Hfunds).
      destruct Hacc as [a Ha].
      split; [by eapply find_account_Some|].
      do 2 (split; [done|]).
      split; [exists r; by rewrite Hr in Hdigits|].
      do 4 (split; [done|]).
      intros a' Ha'. rewrite Ha' in Hfunds.
      by destruct (PrimFloat.ltb (balance a') parsed).
    + intros (Hacc & Hname & Hbank & (r & Hr & Hdigits) & Hnum & Ham & Hnan
              & Hpos & Hfunds).
      pose proof (find_account_known _ Hacc) as [a Ha].
      repeat split; try done.
      * destruct Hacc as [Hc|Hc]; rewrite Hc; by eexists.
      * exists r. split; [done|]. intros ->. done.
      * by rewrite Hr.
      * rewrite Ha. by rewrite (Hfunds a Ha).
  - intros Hvalid. unfold post_handler. fold f. rewrite Hvalid. simpl.
    eexists. split; [reflexivity|]. done.
  - intros Hinvalid. unfold post_handler. fold f.
    destruct (validate parseFloat toFixed2 f) as [|e es]; done.
Qed.

End RouterFacts.

(** ** The preferences store *)

Module PreferencesFacts.
Import Preferences.

Lemma users_get_Own (users : gmap string prefs) id p :
  users_get users id = Own p ↔ users !! id = Some p.
Proof.
  unfold users_get. destruct (users !! id) as [q|].
  - split; congruence.
  - by case_bool_decide.
Qed.

Lemma users_get_Missing (users : gmap string prefs) id :
  users_get users id = Missing → users !! id = None.
Proof. unfold users_get. by destruct (users !! id). Qed.

Lemma users_get_fresh (users : gmap string prefs) id :
  users !! id = None → id ∉ Object_prototype → users_get users id = Missing.
Proof.
  intros Hnone Hproto. unfold users_get. rewrite Hnone.
  by rewrite bool_decide_eq_false_2.
Qed.

Lemma assign_allowed_other entries (p : prefs) k :
  k ∉ allowedFields → assign_allowed entries p !! k = p !! k.
Proof.
  intros Hk. revert p. induction entries as [|[key v] rest IH]; intros p; [done|].
  simpl. case_bool_decide as Hkey; rewrite IH; [|done].
  apply lookup_insert_ne. by intros ->.
Qed.

Lemma assign_allowed_absent entries (p : prefs) k :
  k ∉ entries.*1 → assign_allowed entries p !! k = p !! k.
Proof.
  revert p. induction entries as [|[key v] rest IH]; intros p; [done|].
  rewrite fmap_cons. intros [Hne Hrest]%not_elem_of_cons. simpl in Hne.
  simpl. case_bool_decide; rewrite IH by done; [|done].
  by apply lookup_insert_ne.
Qed.

Lemma assign_allowed_present entries (p : prefs) k v :
  NoDup entries.*1 → (k, v) ∈ entries → k ∈ allowedFields →
  assign_allowed entries p !! k = Some v.
Proof.
  revert p. induction entries as [|[key x] rest IH]; intros p.
  { by intros _ ?%elem_of_nil. }
  rewrite fmap_cons. intros [Hkey Hnd]%NoDup_cons Hin Hallowed. simpl in Hkey.
  apply elem_of_cons in Hin as [[= <- <-]|Hin]; simpl.
  - rewrite bool_decide_eq_true_2 by done.
    rewrite assign_allowed_absent by done. apply lookup_insert_eq.
  - case_bool_decide; by apply IH.
Qed.

Lemma loadData_saveData users f :
  writable f = true → loadData (saveData users f) = stored <$> users.
Proof. intros Hw. unfold saveData. by rewrite Hw. Qed.

Lemma saveData_read_only users f : writable f = false → saveData users f = f.
Proof. intros Hw. unfold saveData. by rewrite Hw. Qed.

(** X23. An update changes the fields of the allowed list that the
    request names, and [updated_at], and nothing else: every other field of
    the user, among them [okta_user_id], [email] and [created_at], keeps its
    value whatever the request holds, and the preferences of every other user
    come back from the file as they were stored. *)
Theorem update_only_allowed_fields now oktaUserId preferences entries f p :
  loadData f !! oktaUserId = Some p →
  Object_entries preferences = Ok entries →
  ∃ p',
    updateUserPreferences now oktaUserId preferences f
    = (Ok (Some (Own p')), saveData (<[oktaUserId := p']> (loadData f)) f)
    ∧ (∀ k, k ∉ allowedFields → k ≠ "updated_at" → p' !! k = p !! k)
    ∧ p' !! "okta_user_id" = p !! "okta_user_id"
    ∧ p' !! "email" = p !! "email"
    ∧ p' !! "created_at" = p !! "created_at"
    ∧ p' !! "updated_at" = Some (VStr now)
    ∧ (∀ k, k ∈ allowedFields → k ∉ entries.*1 → p' !! k = p !! k)
    ∧ (NoDup entries.*1 →
       ∀ k v, (k, v) ∈ entries → k ∈ allowedFields → p' !! k = Some v)
    ∧ (writable f = true →
       ∀ other,
         other ≠ oktaUserId →
         loadData (updateUserPreferences now oktaUserId preferences f).2 !! other
         = stored <$> (loadData f !! other)).
Proof.
  intros Hp Hentries.
  assert (updateUserPreferences now oktaUserId preferences f
          = (Ok (Some (Own (<["updated_at" := VStr now]> (assign_allowed entries p)))),
             saveData
               (<[oktaUserId := <["updated_at" := VStr now]> (assign_allowed entries p)]>
                  (loadData f)) f)) as Hrun.
  { unfold updateUserPreferences.
    by rewrite (proj2 (users_get_Own _ _ _) Hp), Hentries. }
  assert (∀ k, k ∉ allowedFields → k ≠ "updated_at" →
               <["updated_at" := VStr now]> (assign_allowed entries p) !! k = p !! k)
    as Hother.
  { intros k Hk Hne. rewrite lookup_insert_ne by done.
    by apply assign_allowed_other. }
  assert (∀ k, k ∈ allowedFields → k ≠ "updated_at") as Hallowed.
  { intros k Hk ->. revert Hk. apply (bool_decide_unpack _). vm_compute. exact I. }
  eexists. split; [exact Hrun|].
  split; [exact Hother|].
  split; [apply Hother; [apply (bool_decide_unpack _); vm_compute; exact I|done]|].
  split; [apply Hother; [apply (bool_decide_unpack _); vm_compute; exact I|done]|].
  split; [apply Hother; [apply (bool_decide_unpack _); vm_compute; exact I|done]|].
  split; [apply lookup_insert_eq|].
  split; [|split].
  - intros k Hk Habsent. rewrite lookup_insert_ne by (by intros <-; eapply Hallowed).
    by apply assign_allowed_absent.
  - intros Hnd k v Hin Hk.
    rewrite lookup_insert_ne by (by intros <-; eapply Hallowed).
    by apply assign_allowed_present.
  - intros Hw other Hne. rewrite Hrun. cbn [snd].
    rewrite loadData_saveData by done.
    by rewrite lookup_fmap, lookup_insert_ne.
Qed.

Lemma update_only_allowed_fields_witness :
  ∃ p',
    (updateUserPreferences "2026-11-02T09:30:00.000Z" "00u1" Samples.prefs_request
       (Samples.fs_ann true)).1
    = Ok (Some (Own p'))
    ∧ p' !! "email" = Some (VStr "ann@example.com")
    ∧ p' !! "okta_user_id" = Some (VStr "00u1")
    ∧ p' !! "theme" = Some (VStr "dark").
Proof.
  destruct (update_only_allowed_fields "2026-11-02T09:30:00.000Z" "00u1"
              Samples.prefs_request
              [("theme", VStr "dark"); ("email", VStr "eve@example.com");
               ("okta_user_id", VStr "00u9")]
              (Samples.fs_ann true) Samples.ann_prefs)
    as (p' & Hrun & _ & Hid & Hemail & _ & _ & _ & Hset & _).
  - vm_compute. reflexivity.
  - reflexivity.
  - exists p'. rewrite Hrun. split; [done|].
    rewrite Hemail, Hid. split; [vm_compute; reflexivity|].
    split; [vm_compute; reflexivity|].
    apply Hset.
    + apply (bool_decide_unpack _). vm_compute. exact I.
    + apply list_elem_of_here.
    + apply (bool_decide_unpack _). vm_compute. exact I.
Defined.

Lemma created_lookup created updated oktaUserId email k :
  (getDefaultPreferences created updated
   ∪ <["okta_user_id" := VStr oktaUserId]> (<["email" := email]> ∅)) !! k
  = match getDefaultPreferences created updated !! k with
    | Some v => Some v
    | None =>
        if decide (k = "okta_user_id") then Some (VStr oktaUserId)
        else if decide (k = "email") then Some email else None
    end.
Proof.
  rewrite lookup_union.
  destruct (getDefaultPreferences created updated !! k) as [v|] eqn:Hk.
  - by destruct (<["okta_user_id" := VStr oktaUserId]> (<["email" := email]> ∅) !! k).
  - rewrite !lookup_insert, lookup_empty.
    repeat case_decide; simplify_eq; done.
Qed.

(** X24. A user is created once: on a file that can be written, creating
    the preferences of an id that has none stores the defaults with the id
    and the email, a read returns what was stored, and every later creation
    for that id, with whatever email and at whatever time, returns the
    stored preferences and leaves the file as it is.  The preferences of
    the other users come back as they were stored. *)
Theorem create_once created updated oktaUserId email f :
  writable f = true →
  users_get (loadData f) oktaUserId = Missing →
  ∃ p f1,
    createUserPreferences created updated oktaUserId email f = (Own p, f1)
    ∧ p !! "okta_user_id" = Some (VStr oktaUserId)
    ∧ p !! "email" = Some email
    ∧ p !! "theme" = Some (VStr "light")
    ∧ p !! "created_at" = Some (VStr created)
    ∧ getUserPreferences oktaUserId f1 = Own (stored p)
    ∧ stored p !! "okta_user_id" = Some (VStr oktaUserId)
    ∧ (∀ created' updated' email',
         createUserPreferences created' updated' oktaUserId email' f1
         = (Own (stored p), f1))
    ∧ (∀ other,
         other ≠ oktaUserId →
         loadData f1 !! other = stored <$> (loadData f !! other)).
Proof.
  intros Hw Hmissing. unfold createUserPreferences. rewrite Hmissing.
  eexists _, _. split; [reflexivity|].
  assert (loadData
            (saveData
               (<[oktaUserId :=
                    getDefaultPreferences created updated
                    ∪ <["okta_user_id" := VStr oktaUserId]> (<["email" := email]> ∅)]>
                  (loadData f)) f) !! oktaUserId
          = Some (stored
                    (getDefaultPreferences created updated
                     ∪ <["okta_user_id" := VStr oktaUserId]>
                         (<["email" := email]> ∅)))) as Hread.
  { rewrite loadData_saveData by done.
    by rewrite lookup_fmap, lookup_insert_eq. }
  split_and!.
  - by rewrite created_lookup.
  - by rewrite created_lookup.
  - by rewrite created_lookup.
  - by rewrite created_lookup.
  - unfold getUserPreferences. by apply users_get_Own.
  - unfold stored. by rewrite lookup_omap, created_lookup.
  - intros created' updated' email'.
    by rewrite (proj2 (users_get_Own _ _ _) Hread).
  - intros other Hne. rewrite loadData_saveData by done.
    by rewrite lookup_fmap, lookup_insert_ne.
Qed.

Lemma create_once_witness :
  ∃ p f1,
    createUserPreferences "2026-11-02T09:30:00.000Z" "2026-11-02T09:30:00.001Z"
      "00u2" (VStr "bob@example.com") (Samples.fs_ann true)
    = (Own p, f1)
    ∧ getUserPreferences "00u2" f1 = Own (stored p)
    ∧ createUserPreferences "2027-01-01T00:00:00.000Z" "2027-01-01T00:00:00.000Z"
        "00u2" (VStr "eve@example.com") f1
      = (Own (stored p), f1).
Proof.
  destruct (create_once "2026-11-02T09:30:00.000Z" "2026-11-02T09:30:00.001Z"
              "00u2" (VStr "bob@example.com") (Samples.fs_ann true))
    as (p & f1 & Hrun & _ & _ & _ & _ & Hget & _ & Hagain & _).
  - reflexivity.
  - vm_compute. reflexivity.
  - exists p, f1. split; [exact Hrun|]. split; [exact Hget|]. apply Hagain.
Defined.

(** X25. When the file is absent or cannot be read, a user whose id is not
    a name of [Object.prototype] is unknown: a read returns [undefined], an
    update returns [null] and writes nothing, and a creation, if the file can
    be written, replaces the file by one that holds this user alone. *)
Theorem unreadable_file_starts_over created updated now oktaUserId email
    preferences f :
  db f = NoFile ∨ db f = Unreadable →
  oktaUserId ∉ Object_prototype →
  getUserPreferences oktaUserId f = Missing
  ∧ updateUserPreferences now oktaUserId preferences f = (Ok None, f)
  ∧ (writable f = true →
     ∃ p,
       (createUserPreferences created updated oktaUserId email f).1 = Own p
       ∧ db (createUserPreferences created updated oktaUserId email f).2
         = Content {[oktaUserId := stored p]}).
Proof.
  intros Hfile Hproto.
  assert (loadData f = ∅) as Hload.
  { unfold loadData. by destruct Hfile as [-> | ->]. }
  assert (users_get (loadData f) oktaUserId = Missing) as Hmissing.
  { apply users_get_fresh; [|done]. by rewrite Hload, lookup_empty. }
  split; [done|]. split.
  - unfold updateUserPreferences. by rewrite Hmissing.
  - intros Hw. unfold createUserPreferences. rewrite Hmissing, Hload.
    eexists. split; [reflexivity|]. cbn [snd]. unfold saveData. rewrite Hw.
    cbn [db]. f_equal. rewrite insert_empty. apply map_fmap_singleton.
Qed.

Lemma unreadable_file_starts_over_witness :
  getUserPreferences "00u1" (mkFs Unreadable true) = Missing
  ∧ updateUserPreferences "2026-11-02T09:30:00.000Z" "00u1" Samples.prefs_request
      (mkFs Unreadable true)
    = (Ok None, mkFs Unreadable true).
Proof.
  destruct (unreadable_file_starts_over "c" "u" "2026-11-02T09:30:00.000Z" "00u1"
              VUndefined Samples.prefs_request (mkFs Unreadable true))
    as (Hget & Hupdate & _).
  - by right.
  - apply (bool_decide_unpack _). vm_compute. exact I.
  - by split.
Defined.

(** X26. A write that fails is silent: when the file cannot be written, a
    creation and an update still return the new preferences, but the file is
    as before, so the next read returns what it returned before. *)
Theorem failed_write_is_silent created updated now oktaUserId email
    preferences entries f :
  writable f = false →
  Object_entries preferences = Ok entries →
  (createUserPreferences created updated oktaUserId email f).2 = f
  ∧ (updateUserPreferences now oktaUserId preferences f).2 = f
  ∧ (users_get (loadData f) oktaUserId = Missing →
     ∃ p,
       (createUserPreferences created updated oktaUserId email f).1 = Own p
       ∧ getUserPreferences oktaUserId
           (createUserPreferences created updated oktaUserId email f).2
         = Missing)
  ∧ (∀ p,
       loadData f !! oktaUserId = Some p →
       ∃ p',
         (updateUserPreferences now oktaUserId preferences f).1
         = Ok (Some (Own p'))
         ∧ p' !! "updated_at" = Some (VStr now)
         ∧ getUserPreferences oktaUserId
             (updateUserPreferences now oktaUserId preferences f).2
           = Own p).
Proof.
  intros Hw Hentries.
  assert ((createUserPreferences created updated oktaUserId email f).2 = f)
    as Hcreate.
  { unfold createUserPreferences.
    destruct (users_get _ _); [done|done|]. by apply saveData_read_only. }
  assert ((updateUserPreferences now oktaUserId preferences f).2 = f) as Hupdate.
  { unfold updateUserPreferences. rewrite Hentries.
    destruct (users_get _ _); [|by apply saveData_read_only|done].
    by apply saveData_read_only. }
  split; [done|]. split; [done|]. split.
  - intros Hmissing. rewrite Hcreate.
    unfold createUserPreferences. rewrite Hmissing. eexists. by split.
  - intros p Hp. rewrite Hupdate.
    unfold updateUserPreferences.
    rewrite (proj2 (users_get_Own _ _ _) Hp), Hentries.
    eexists. split; [reflexivity|]. split; [apply lookup_insert_eq|].
    unfold getUserPreferences. by apply users_get_Own.
Qed.

Lemma failed_write_is_silent_witness :
  ∃ p',
    (updateUserPreferences "2026-11-02T09:30:00.000Z" "00u1" Samples.prefs_request
       (Samples.fs_ann false)).1
    = Ok (Some (Own p'))
    ∧ p' !! "updated_at" = Some (VStr "2026-11-02T09:30:00.000Z")
    ∧ getUserPreferences "00u1"
        (updateUserPreferences "2026-11-02T09:30:00.000Z" "00u1"
           Samples.prefs_request (Samples.fs_ann false)).2
      = Own Samples.ann_prefs.
Proof.
  destruct (failed_write_is_silent "c" "u" "2026-11-02T09:30:00.000Z" "00u1"
              VUndefined Samples.prefs_request
              [("theme", VStr "dark"); ("email", VStr "eve@example.com");
               ("okta_user_id", VStr "00u9")]
              (Samples.fs_ann false) eq_refl eq_refl)
    as (_ & _ & _ & Hupdate).
  apply Hupdate. vm_compute. reflexivity.
Defined.

End PreferencesFacts.
